(** * Skill Scout: skill extraction and importance scoring

    A shallow embedding of the two Python programs of the repository,

    - [server/nlp_service.py], the Flask service (module [Server]), and
    - [attached_assets/app_1767956252310.py], the interactive Streamlit
      screener (module [App]),

    together with the properties of the skill vocabulary, the role skill
    resolver, the skill matcher and the importance scorer.

    Modelling conventions.

    - A Python [str] is a [string] whose characters are the code points
      below 256 (Latin-1); [lower], [strip] and [split] follow Python on
      that range.  No statement below relies on lower-casing keeping the
      length of a string, which Python does not promise outside that
      range.
    - A Python [float] score is an exact rational ([Q]); [==] is equality
      of rationals.  The constants [0.7], [0.1], [0.05], [1.2], ... are the
      decimal fractions the source writes.  Binary floating point rounds
      ([0.7 + 0.1] is a little below [0.8]), so a statement that compares
      a score with a bound keeps a margin that rounding cannot cross, or
      is about the comparison the code makes, whatever the two values.
    - A [dict] keyed by skill name is a [gmap string Q]; a missing key
      ([KeyError]) is [None] in the option monad.
    - The reference table is a list of rows of strings: every title is
      present.  What pandas does to select the rows of a role
      ([Series.str.contains], a search for a regular expression) and what
      the embedding provider returns are parameters of the model;
      [regex_contains] below instantiates the former on a fragment of the
      regular expressions. *)

From Stdlib Require Import Ascii QArith Qminmax Lqa.
From stdpp Require Import gmap strings list sorting.

Open Scope string_scope.
Open Scope list_scope.

(** ** Python string primitives *)

Module Py.

(** [c.lower()] for one code point below 256: [A-Z] and the accented
    capitals U+00C0..U+00DE (U+00D7, the multiplication sign, apart). *)
Definition lower_char (c : ascii) : ascii :=
  let n := nat_of_ascii c in
  if (((65 <=? n) && (n <=? 90))
      || ((192 <=? n) && (n <=? 222) && negb (n =? 215)))%nat
  then ascii_of_nat (n + 32) else c.

(** [s.lower()] *)
Fixpoint lower (s : string) : string :=
  match s with
  | "" => ""
  | String c s' => String (lower_char c) (lower s')
  end.

(** [c.isspace()]: tab, line feed, vertical tab, form feed, carriage
    return, the separators U+001C..U+001F, space, U+0085 and U+00A0. *)
Definition isspace (c : ascii) : bool :=
  let n := nat_of_ascii c in
  (((9 <=? n) && (n <=? 13)) || ((28 <=? n) && (n <=? 32))
   || (n =? 133) || (n =? 160))%nat.

Fixpoint lstrip (s : string) : string :=
  match s with
  | "" => ""
  | String c s' => if isspace c then lstrip s' else s
  end.

Fixpoint rstrip (s : string) : string :=
  match s with
  | "" => ""
  | String c s' =>
      match rstrip s' with
      | "" => if isspace c then "" else String c ""
      | r => String c r
      end
  end.

(** [s.strip()] *)
Definition strip (s : string) : string := rstrip (lstrip s).

(** [s.split(sep)] for a one-character separator: the fields between
    the separators, empty fields included. *)
Fixpoint split_on (sep : ascii) (s : string) : list string :=
  match s with
  | "" => [""]
  | String c s' =>
      if Ascii.eqb c sep then "" :: split_on sep s'
      else match split_on sep s' with
           | field :: fields => String c field :: fields
           | [] => [String c ""]
           end
  end.

(** [s.split()]: the maximal runs of non-space characters. *)
Fixpoint split (s : string) : list string :=
  match s with
  | "" => []
  | String c s' =>
      if isspace c then split s'
      else match s' with
           | "" => [String c ""]
           | String c' _ =>
               if isspace c' then String c "" :: split s'
               else match split s' with
                    | w :: ws => String c w :: ws
                    | [] => [String c ""]
                    end
           end
  end.

(** [s.startswith(p)] *)
Fixpoint startswith (s p : string) {struct p} : bool :=
  match p with
  | "" => true
  | String a p' =>
      match s with
      | "" => false
      | String b s' => Ascii.eqb a b && startswith s' p'
      end
  end.

(** [sub in s] *)
Fixpoint contains (sub s : string) : bool :=
  startswith s sub
  || match s with
     | "" => false
     | String _ s' => contains sub s'
     end.

(** [s.find(sub)]: the lowest index where [sub] starts, [-1] when
    there is none. *)
Fixpoint find (sub s : string) : Z :=
  if startswith s sub then 0%Z
  else match s with
       | "" => (-1)%Z
       | String _ s' =>
           let i := find sub s' in
           if (i <? 0)%Z then (-1)%Z else (i + 1)%Z
       end.

(** The scan of [s.count(sub)] for a non-empty [sub]: occurrences are
    counted left to right and do not overlap, so after a match the
    next [skip] characters are passed over. *)
Fixpoint count_from (sub : string) (skip : nat) (s : string) : nat :=
  match s with
  | "" => 0
  | String _ s' =>
      match skip with
      | S k => count_from sub k s'
      | O =>
          if startswith s sub
          then S (count_from sub (String.length sub - 1) s')
          else count_from sub 0 s'
      end
  end.

(** [s.count(sub)]; the empty string is counted between all
    characters and at both ends. *)
Definition count (sub s : string) : nat :=
  match sub with
  | "" => S (String.length s)
  | _ => count_from sub 0 s
  end.

(** [s[i:j]] for indices [0 <= i] and [0 <= j] (the only slices the
    programs take): the characters at positions [i], ..., [j - 1] that
    exist. *)
Definition slice (s : string) (i j : Z) : string :=
  String.substring (Z.to_nat i) (Z.to_nat (j - i)) s.

(** [len(s)] *)
Definition len (s : string) : Z := Z.of_nat (String.length s).

(** [sep.join(l)] *)
Fixpoint join (sep : string) (l : list string) : string :=
  match l with
  | [] => ""
  | [x] => x
  | x :: l' => String.append x (String.append sep (join sep l'))
  end.

(** [sorted(X)] for a set of strings; [String.le] is the order of
    [str] comparison, by code point from left to right. *)
Definition sorted (X : gset string) : list string :=
  merge_sort String.le (elements X).

(** [set(l)] *)
Definition set (l : list string) : gset string := list_to_set l.

(** [min(x, 1.0)] *)
Definition min1 (x : Q) : Q := if Qle_bool x 1 then x else 1%Q.

End Py.

(** ** Data model *)

(** A row of the reference table ([jobs.csv]). *)
Record row := Row {
  job_title : string;
  technical_skills : string;
  soft_skills : string
}.

(** A scored skill: [{"skill": skill, "score": score}] in the service,
    the tuple [(skill, score)] in the screener. *)
Definition item : Type := string * Q.

(** What a request handler of the service answers. *)
Inductive response (A : Type) : Type :=
| Ok (body : A)                (* 200 *)
| BadRequest (error : string)  (* 400 *)
| NotFound (error : string)    (* 404 *)
| ServerError.                 (* 500: an exception reached the handler *)
Arguments Ok {A} body.
Arguments BadRequest {A} error.
Arguments NotFound {A} error.
Arguments ServerError {A}.

(** The body of a successful [/analyze/resume] answer. *)
Record match_result := MatchResult {
  matchScore : Q;
  techSkillsFound : list string;
  softSkillsFound : list string;
  missingTechSkills : list string;
  missingSoftSkills : list string;
  recommendation : string
}.

(** [df["job_title"] = df["job_title"].str.lower()], done once when the
    table is loaded. *)
Definition load_dataset (csv : list row) : list row :=
  (fun r => Row (Py.lower (job_title r)) (technical_skills r) (soft_skills r))
    <$> csv.

(** [extract_skills_from_text(text, skill_list)], the same in both
    programs. *)
Definition extract_skills_from_text (text : string) (skill_list : list string)
  : list string :=
  let found := filter (fun skill => Py.contains (Py.lower skill) text = true)
                      skill_list in
  Py.sorted (Py.set found).

(** The tokens one column contributes to the vocabulary:
    [s.strip().lower() for s in str(row[col]).split(",")] over all rows. *)
Definition column_tokens (col : row -> string) (df : list row) : list string :=
  r ← df; (fun s => Py.lower (Py.strip s)) <$> Py.split_on "," (col r).

(** [get_all_skills()], the same in both programs. *)
Definition get_all_skills (df : list row) : list string * list string :=
  let tech_skills := Py.set (column_tokens technical_skills df) in
  let soft_skills := Py.set (column_tokens soft_skills df) in
  let tech_skills := tech_skills ∖ {[ "" ]} in
  let soft_skills := soft_skills ∖ {[ "" ]} in
  (Py.sorted tech_skills, Py.sorted soft_skills).

(** ** The importance scorer

    The three loops of [analyze_jd] and [extract_mandatory_skills].  The
    two programs differ in the keyword table and in how they write the
    length of the skill in the window's upper bound. *)

Section Scorer.

(** The keyword table, in the order the dict literal lists it. *)
Variable keywords : list (string * Q).
(** [len(skill)] in the service, [len(skill_lower)] in the screener. *)
Variable skill_len : string -> Z.
Variable job_desc_lower : string.

Definition exact_count (skill : string) : nat :=
  Py.count (Py.lower skill) job_desc_lower.

Definition word_matches (skill : string) : nat :=
  sum_list ((fun word => Py.count word job_desc_lower)
              <$> Py.split (Py.lower skill)).

(** The score before it is capped. *)
Definition raw_score (skill : string) : Q :=
  if (0 <? exact_count skill)%nat
  then 0.7 + inject_Z (Z.of_nat (exact_count skill)) * 0.1
  else inject_Z (Z.of_nat (word_matches skill)) * 0.05.

Definition base_score (skill : string) : Q := Py.min1 (raw_score skill).

(** First loop: [skill_scores[skill] = min(score, 1.0)]. *)
Definition score_skills (all_skills : list string) : gmap string Q :=
  foldl (fun skill_scores skill => <[skill := base_score skill]> skill_scores)
        ∅ all_skills.

(** The text around the first occurrence of the skill. *)
Definition context_of (skill : string) : string :=
  let idx := Py.find (Py.lower skill) job_desc_lower in
  Py.slice job_desc_lower
           (Z.max 0 (idx - 50))
           (Z.min (Py.len job_desc_lower) (idx + skill_len skill + 50)).

(** The [for keyword, boost in ...items()] loop with its [break]: the
    factor of the first keyword of the table found in the context. *)
Definition first_boost (context : string) : option Q :=
  snd <$> List.find (fun kv => Py.contains (fst kv) context) keywords.

(** One iteration of the second loop. *)
Definition boost_skill (skill_scores : gmap string Q) (skill : string)
  : option (gmap string Q) :=
  if Py.contains (Py.lower skill) job_desc_lower then
    match first_boost (context_of skill) with
    | Some boost =>
        score ← skill_scores !! skill;
        Some (<[skill := Py.min1 (score * boost)]> skill_scores)
    | None => Some skill_scores
    end
  else Some skill_scores.

(** Second loop. *)
Fixpoint boost_skills (all_skills : list string) (skill_scores : gmap string Q)
  : option (gmap string Q) :=
  match all_skills with
  | [] => Some skill_scores
  | skill :: rest =>
      skill_scores ← boost_skill skill_scores skill;
      boost_skills rest skill_scores
  end.

(** Third loop: filter and categorize, appending to [found_tech] or
    [found_soft]. *)
Fixpoint categorize (threshold : Q) (all_tech : list string)
    (skill_scores : gmap string Q) (all_skills : list string)
    (found_tech found_soft : list item) : option (list item * list item) :=
  match all_skills with
  | [] => Some (found_tech, found_soft)
  | skill :: rest =>
      score ← skill_scores !! skill;
      if Qle_bool (threshold * 0.5) score then
        if bool_decide (skill ∈ all_tech)
        then categorize threshold all_tech skill_scores rest
                        (found_tech ++ [(skill, score)]) found_soft
        else categorize threshold all_tech skill_scores rest
                        found_tech (found_soft ++ [(skill, score)])
      else categorize threshold all_tech skill_scores rest found_tech found_soft
  end.

(** The scores after both loops. *)
Definition final_scores (all_skills : list string) : option (gmap string Q) :=
  boost_skills all_skills (score_skills all_skills).

End Scorer.

(** [sorted(found, key=score, reverse=True)]: a stable sort, the higher
    score first and equal scores in their order of arrival. *)
Fixpoint insert_desc (x : item) (l : list item) : list item :=
  match l with
  | [] => [x]
  | y :: l' => if Qlt_le_dec (snd x) (snd y) then y :: insert_desc x l'
               else x :: l
  end.

Definition sort_desc (l : list item) : list item := foldr insert_desc [] l.

(** The scorer from the vocabulary to the two ranked lists. *)
Definition rank_skills (keywords : list (string * Q)) (skill_len : string -> Z)
    (job_desc_lower : string) (threshold : Q) (all_tech all_soft : list string)
  : option (list item * list item) :=
  let all_skills := all_tech ++ all_soft in
  skill_scores ← final_scores keywords skill_len job_desc_lower all_skills;
  found ← categorize threshold all_tech skill_scores all_skills [] [];
  Some (sort_desc (fst found), sort_desc (snd found)).

(** ** The service: [server/nlp_service.py] *)

Module Server.
Section Service.

(** The rows of [server/data/jobs.csv]. *)
Variable jobs_csv : list row.
(** pandas' [Series.str.contains(pat, na=False)] for the pattern [pat]:
    [None] when pandas rejects the pattern (it reads it as a regular
    expression), else the test it applies to every title. *)
Variable str_contains : string -> option (string -> bool).
(** The embedding provider with the cosine similarity of the two
    embeddings, as the percentage [round(score * 100, 2)]; [None] when
    the provider raises. *)
Variable match_score : string -> string -> option Q.

Definition df : list row := load_dataset jobs_csv.

(** [extract_text_from_pdf], from the text of each page ([None] for a
    page without text). *)
Definition extract_text_from_pdf (pages : list (option string)) : string :=
  let text := foldl (fun text page_text =>
                       match page_text with
                       | Some t => if decide (t = "") then text
                                   else String.append text (String.append t " ")
                       | None => text
                       end) "" pages in
  Py.strip (Py.lower text).

Definition clean_skills (raw : list string) : list string :=
  Py.sorted (Py.set ((fun s => Py.lower (Py.strip s))
                       <$> filter (fun s => Py.strip s ≠ "") raw)).

(** The part of [get_job_skills] after the rows are selected. *)
Definition skills_of_rows (filtered : list row)
  : list string * list string * string :=
  match filtered with
  | [] => ([], [], "")
  | _ =>
      let tech_skills := r ← filtered; Py.split_on "," (technical_skills r) in
      let soft_skills := r ← filtered; Py.split_on "," (soft_skills r) in
      let tech_skills := clean_skills tech_skills in
      let soft_skills := clean_skills soft_skills in
      let job_text := Py.join " " (tech_skills ++ soft_skills) in
      (tech_skills, soft_skills, job_text)
  end.

Definition get_job_skills (job_role : string)
  : option (list string * list string * string) :=
  let job_role := Py.lower job_role in
  title_matches ← str_contains job_role;
  let filtered := filter (fun r => title_matches (job_title r) = true) df in
  Some (skills_of_rows filtered).

(** [analyze_resume] from the resolution of the role on. *)
Definition screen (resume_text job_role : string) : response match_result :=
  match get_job_skills job_role with
  | None => ServerError
  | Some (tech_skills, soft_skills, job_text) =>
      if decide (job_text = "") then NotFound "Job role not found in dataset"
      else
        let resume_tech := extract_skills_from_text resume_text tech_skills in
        let resume_soft := extract_skills_from_text resume_text soft_skills in
        let missing_tech := Py.sorted (Py.set tech_skills ∖ Py.set resume_tech) in
        let missing_soft := Py.sorted (Py.set soft_skills ∖ Py.set resume_soft) in
        match match_score resume_text job_text with
        | None => ServerError
        | Some score =>
            Ok (MatchResult score resume_tech resume_soft missing_tech missing_soft
                  (match missing_tech, missing_soft with
                   | [], [] => "Resume matches the role well."
                   | _, _ => "Upskill using Coursera, Udemy, or LinkedIn Learning."
                   end))
        end
  end.

(** The handler of [/analyze/resume]: the uploaded file (its pages) and
    the form field [job_role], either of which may be missing. *)
Definition analyze_resume (file : option (list (option string)))
    (job_role : option string) : response match_result :=
  match file with
  | None => BadRequest "No file provided"
  | Some pages =>
      match job_role with
      | None | Some "" => BadRequest "No job role provided"
      | Some job_role => screen (extract_text_from_pdf pages) job_role
      end
  end.

Definition keywords : list (string * Q) :=
  [("required", 1.2%Q); ("must have", 1.3%Q); ("mandatory", 1.4%Q)].

(** The handler of [/analyze/jd], from the fields [description] and
    [threshold] of the request. *)
Definition analyze_jd (job_description : string) (threshold : Q)
  : response (list item * list item) :=
  if decide (job_description = "") then BadRequest "No description provided"
  else
    let '(all_tech, all_soft) := get_all_skills df in
    let job_desc_lower := Py.lower job_description in
    match rank_skills keywords Py.len job_desc_lower threshold all_tech all_soft with
    | Some (found_tech, found_soft) => Ok (found_tech, found_soft)
    | None => ServerError
    end.

End Service.
End Server.

(** ** The screener: [attached_assets/app_1767956252310.py] *)

Module App.
Section Screener.

(** The rows of the screener's CSV file. *)
Variable jobs_csv : list row.
(** pandas' [Series.str.contains(pat)], as in [Server].  The screener
    does not pass [na=False]: the two calls select alike on a table whose
    titles are all present, the only tables of this model. *)
Variable str_contains : string -> option (string -> bool).

Definition df : list row := load_dataset jobs_csv.

Definition clean_skills (raw : list string) : list string :=
  Py.sorted (Py.set ((fun s => Py.lower (Py.strip s)) <$> raw)).

Definition skills_of_rows (filtered : list row)
  : list string * list string * string :=
  match filtered with
  | [] => ([], [], "")
  | _ =>
      let tech_skills := r ← filtered; Py.split_on "," (technical_skills r) in
      let soft_skills := r ← filtered; Py.split_on "," (soft_skills r) in
      let tech_skills := clean_skills tech_skills in
      let soft_skills := clean_skills soft_skills in
      let job_text := Py.join " " (tech_skills ++ soft_skills) in
      (tech_skills, soft_skills, job_text)
  end.

Definition get_job_skills (job_role : string)
  : option (list string * list string * string) :=
  let job_role := Py.lower job_role in
  title_matches ← str_contains job_role;
  let filtered := filter (fun r => title_matches (job_title r) = true) df in
  Some (skills_of_rows filtered).

Definition importance_keywords : list (string * Q) :=
  [("required", 1.2%Q); ("must have", 1.3%Q); ("mandatory", 1.4%Q);
   ("essential", 1.2%Q); ("critical", 1.3%Q); ("preferred", 0.8%Q);
   ("nice to have", 0.6%Q); ("optional", 0.5%Q)].

(** [extract_mandatory_skills(job_description, similarity_threshold)];
    it raises when the result is [None]. *)
Definition extract_mandatory_skills (job_description : string)
    (similarity_threshold : Q) : option (list item * list item) :=
  if decide (job_description = "") then Some ([], [])
  else if (Py.len (Py.strip job_description) <? 10)%Z then Some ([], [])
  else
    let '(all_tech_skills, all_soft_skills) := get_all_skills df in
    let job_desc_lower := Py.lower job_description in
    rank_skills importance_keywords (fun skill => Py.len (Py.lower skill))
                job_desc_lower similarity_threshold
                all_tech_skills all_soft_skills.

(** [mandatory_tech_scored[:top_n]]; the number input keeps [top_n]
    between 1 and 50. *)
Definition top (top_n : nat) (scored : list item) : list item :=
  take top_n scored.

(** What the "Job Description Analysis" tab shows. *)
Inductive tab_view : Type :=
| Info (message : string)
| Ranked (mandatory_tech_scored mandatory_soft_scored : list item)
| Raised.

(** The body of the tab, from the pasted or uploaded text, the slider
    and the number input. *)
Definition job_description_tab (job_description_text : string)
    (similarity_threshold : Q) (top_n : nat) : tab_view :=
  if decide (job_description_text = "")
  then Info "Paste or upload a job description to extract and rank mandatory skills."
  else
    match extract_mandatory_skills job_description_text similarity_threshold with
    | Some (mandatory_tech_scored, mandatory_soft_scored) =>
        Ranked (top top_n mandatory_tech_scored) (top top_n mandatory_soft_scored)
    | None => Raised
    end.

(** [score < bound] *)
Definition below (score bound : Q) : bool :=
  if Qlt_le_dec score bound then true else false.

(** The three priority lists of the breakdown:
    [[s for s, score in scored if score >= 0.65]], ... *)
Definition must_have (scored : list item) : list string :=
  fst <$> filter (fun it => Qle_bool 0.65 (snd it) = true) scored.

Definition good_to_have (scored : list item) : list string :=
  fst <$> filter (fun it => Qle_bool 0.45 (snd it) && below (snd it) 0.65 = true)
                 scored.

Definition nice_to_have (scored : list item) : list string :=
  fst <$> filter (fun it => below (snd it) 0.45 = true) scored.

(** The priority written to the exported CSV. *)
Definition importance (score : Q) : string :=
  if Qle_bool 0.65 score then "MUST HAVE"
  else if Qle_bool 0.45 score then "GOOD TO HAVE"
  else "NICE TO HAVE".

End Screener.
End App.

(** ** Notions used in the statements *)

(** The suffix of [s] from position [n] on. *)
Fixpoint drop_str (n : nat) (s : string) : string :=
  match n, s with
  | S n', String _ s' => drop_str n' s'
  | _, _ => s
  end.

(** How many times [k] is listed in [l]. *)
Definition occurrences (k : string) (l : list string) : nat :=
  length (filter (fun x => x = k) l).

(** What one iteration of the second loop makes of the score of
    [skill]. *)
Definition boost_value (keywords : list (string * Q)) (skill_len : string -> Z)
    (job_desc_lower skill : string) (score : Q) : Q :=
  if Py.contains (Py.lower skill) job_desc_lower then
    match first_boost keywords (context_of skill_len job_desc_lower skill) with
    | Some boost => Py.min1 (score * boost)
    | None => score
    end
  else score.

(** The entry the third loop appends for [skill], if any. *)
Definition passes (threshold : Q) (skill_scores : gmap string Q) (skill : string)
  : option item :=
  score ← skill_scores !! skill;
  if Qle_bool (threshold * 0.5) score then Some (skill, score) else None.

(** The concatenated vocabulary both scorers iterate over. *)
Definition all_skills (jobs_csv : list row) : list string :=
  let vocabulary := get_all_skills (load_dataset jobs_csv) in
  fst vocabulary ++ snd vocabulary.

(** The number of characters of [s] that are not whitespace. *)
Fixpoint non_space_count (s : string) : nat :=
  match s with
  | "" => 0
  | String c s' => if Py.isspace c then non_space_count s'
                   else S (non_space_count s')
  end.

(** [Series.str.contains] on a pattern without regular-expression
    metacharacters: literal containment. *)
Definition literal_contains (pat : string) : option (string -> bool) :=
  Some (Py.contains pat).

(** The regular expressions of ordinary characters, [.] and parentheses,
    compiled: a group without a quantifier only groups, so what is left
    to match is a sequence of atoms. *)
Inductive re_atom : Type :=
| AnyChar               (* [.]: any character but a line feed *)
| Literal (c : ascii).  (* an ordinary character: itself *)

(** The special characters this fragment leaves out. *)
Definition re_special (c : ascii) : bool :=
  existsb (Ascii.eqb c) (String.list_ascii_of_string "\^$*+?{}[]|").

(** [re.compile(pat)] on the fragment, [depth] groups being open: [None]
    when a parenthesis is not matched by another ([re.error]). *)
Fixpoint re_compile (depth : nat) (pat : string) : option (list re_atom) :=
  match pat with
  | "" => match depth with O => Some [] | S _ => None end
  | String c pat' =>
      if Ascii.eqb c "(" then re_compile (S depth) pat'
      else if Ascii.eqb c ")" then
        match depth with O => None | S depth' => re_compile depth' pat' end
      else if Ascii.eqb c "." then cons AnyChar <$> re_compile depth pat'
      else cons (Literal c) <$> re_compile depth pat'
  end.

Definition re_atom_matches (a : re_atom) (c : ascii) : bool :=
  match a with
  | AnyChar => negb (Ascii.eqb c "010")
  | Literal a => Ascii.eqb a c
  end.

(** The compiled pattern matches at the start of [s]. *)
Fixpoint re_match (atoms : list re_atom) (s : string) : bool :=
  match atoms with
  | [] => true
  | a :: atoms' =>
      match s with
      | "" => false
      | String c s' => re_atom_matches a c && re_match atoms' s'
      end
  end.

(** [re.search]: the compiled pattern matches somewhere in [s]. *)
Fixpoint re_search (atoms : list re_atom) (s : string) : bool :=
  re_match atoms s
  || match s with
     | "" => false
     | String _ s' => re_search atoms s'
     end.

(** [Series.str.contains(pat, na=False)] as pandas runs it by default,
    [regex=True]: the pattern is compiled, which may raise, and searched
    for in every title.  Only the fragment above is modelled; for a
    pattern with another special character the model has no test to
    offer and no statement below gives it one. *)
Definition regex_contains (pat : string) : option (string -> bool) :=
  if existsb re_special (String.list_ascii_of_string pat) then None
  else re_search <$> re_compile 0 pat.

(** A pattern of ordinary characters only. *)
Definition re_plain (pat : string) : bool :=
  forallb (fun c => negb (re_special c || Ascii.eqb c "." || Ascii.eqb c "("
                          || Ascii.eqb c ")"))
          (String.list_ascii_of_string pat).

(** The table of the specification's examples. *)
Definition sample_csv : list row :=
  [Row "Data Scientist" "python, sql, machine learning" "communication"].

(** A table where one skill name is technical in one row and soft in
    another. *)
Definition overlap_csv : list row :=
  [Row "Data Analyst" "sql, presentation" "communication";
   Row "Product Manager" "roadmapping" "presentation, communication"].

(** The order of a ranked list: the score does not increase. *)
Definition by_score_desc (x y : item) : Prop := (snd y <= snd x)%Q.

(** ** The primitives on examples *)

Example lower_ex : Py.lower "Data Scientist, SQL" = "data scientist, sql".
Proof. reflexivity. Qed.
Example strip_ex : Py.strip "  machine learning " = "machine learning".
Proof. reflexivity. Qed.
Example split_on_ex :
  Py.split_on "," "python, sql,," = ["python"; " sql"; ""; ""].
Proof. reflexivity. Qed.
Example split_ex :
  Py.split "  machine   learning x " = ["machine"; "learning"; "x"].
Proof. reflexivity. Qed.
Example count_ex :
  Py.count "aa" "aaaaa" = 2 /\ Py.count "" "abc" = 4
  /\ Py.find "b" "aab" = 2%Z /\ Py.find "c" "aab" = (-1)%Z.
Proof. repeat split. Qed.
Example sorted_set_ex :
  Py.sorted (Py.set ["sql"; "python"; "sql"; "machine learning"])
  = ["machine learning"; "python"; "sql"].
Proof. vm_compute. reflexivity. Qed.
Example join_ex : Py.join " " ["a";"b";"c"] = "a b c".
Proof. reflexivity. Qed.
Example slice_ex : Py.slice "abcdefgh" 2 5 = "cde" /\ Py.slice "abc" 1 10 = "bc".
Proof. split; reflexivity. Qed.

(** ** Facts about the string primitives *)

Lemma append_nil t : String.append "" t = t.
Proof. reflexivity. Qed.

Lemma append_cons c s t : String.append (String c s) t = String c (String.append s t).
Proof. reflexivity. Qed.

Lemma append_length a b :
  String.length (String.append a b) = (String.length a + String.length b)%nat.
Proof. induction a; rewrite ?append_nil, ?append_cons; simpl; congruence. Qed.

Lemma startswith_spec s p :
  Py.startswith s p = true <-> exists t, s = String.append p t.
Proof.
  revert s. induction p as [|a p IH]; intros s; simpl.
  - split; [intros _; exists s; reflexivity | reflexivity].
  - destruct s as [|b s].
    + split; [discriminate | intros [t Ht]; discriminate].
    + rewrite andb_true_iff, Ascii.eqb_eq, IH. split.
      * intros [-> [t ->]]. exists t. reflexivity.
      * intros [t Ht]. rewrite append_cons in Ht. injection Ht as -> ->. eauto.
Qed.

(** [sub in s] is literal substring containment. *)
Lemma contains_spec sub s :
  Py.contains sub s = true
  <-> exists a b, s = String.append a (String.append sub b).
Proof.
  induction s as [|c s IH]; simpl.
  - rewrite orb_false_r, startswith_spec. split.
    + intros [t Ht]. exists "", t. exact Ht.
    + intros [[|x a] [b Hab]]; [eauto | rewrite append_cons in Hab; discriminate].
  - rewrite orb_true_iff, startswith_spec, IH. split.
    + intros [[t Ht] | (a & b & ->)].
      * exists "", t. exact Ht.
      * exists (String c a), b. reflexivity.
    + intros [[|x a] [b Hab]]; [left; eauto |].
      right. rewrite append_cons in Hab. injection Hab as -> ->. eauto.
Qed.

(** [find] answers [-1] exactly when [sub] does not occur. *)
Lemma find_contains sub s :
  (if Py.contains sub s then 0 <= Py.find sub s else Py.find sub s = -1)%Z.
Proof.
  induction s as [|c s IH]; simpl.
  - destruct (Py.startswith "" sub); simpl; lia.
  - destruct (Py.startswith (String c s) sub); simpl; [lia|].
    destruct (Py.contains sub s); destruct (Z.ltb_spec (Py.find sub s) 0); lia.
Qed.

(** When [sub] occurs, [find] is the index of its first occurrence. *)
Lemma find_first sub s :
  Py.contains sub s = true ->
  let i := Z.to_nat (Py.find sub s) in
  (i + String.length sub <= String.length s)%nat
  /\ Py.startswith (drop_str i s) sub = true
  /\ forall j, (j < i)%nat -> Py.startswith (drop_str j s) sub = false.
Proof.
  induction s as [|c s IH]; simpl.
  - rewrite orb_false_r. intros H. rewrite H. simpl. destruct sub; [|discriminate].
    repeat split; [simpl; lia | intros; lia].
  - destruct (Py.startswith (String c s) sub) eqn:E; simpl.
    + intros _. repeat split; [| exact E | intros; lia].
      apply startswith_spec in E as [t Ht].
      apply (f_equal String.length) in Ht. rewrite append_length in Ht.
      simpl in Ht. lia.
    + intros H. specialize (IH H). pose proof (find_contains sub s) as F.
      rewrite H in F. destruct (Z.ltb_spec (Py.find sub s) 0); [lia|].
      replace (Z.to_nat (Py.find sub s + 1)) with (S (Z.to_nat (Py.find sub s))) by lia.
      simpl. destruct IH as (I1 & I2 & I3). repeat split; [lia | exact I2 |].
      intros [|j] Hj; simpl; [exact E | apply I3; lia].
Qed.

Lemma count_from_pos sub s :
  (0 < Py.count_from sub 0 s)%nat <-> Py.contains sub s = true /\ s <> "".
Proof.
  induction s as [|c s IH]; simpl.
  - split; [lia | intros [_ H]; congruence].
  - destruct (Py.startswith (String c s) sub) eqn:E; simpl.
    + split; [intros _; split; [reflexivity|discriminate] | lia].
    + rewrite IH. split.
      * intros [H _]. split; [exact H | discriminate].
      * intros [H _]. split; [exact H|]. intros ->. simpl in H.
        rewrite orb_false_r in H. destruct sub; simpl in *; congruence.
Qed.

(** A non-empty [sub] is counted at least once exactly when it occurs. *)
Lemma count_pos sub s :
  sub <> "" -> ((0 < Py.count sub s)%nat <-> Py.contains sub s = true).
Proof.
  intros Hsub. unfold Py.count. destruct sub as [|a sub]; [congruence|].
  rewrite count_from_pos. split; [tauto|]. intros H. split; [exact H|].
  intros ->. discriminate.
Qed.

Lemma count_from_skip sub k s :
  Py.count_from sub k s = Py.count_from sub 0 (drop_str k s).
Proof.
  revert k. induction s as [|c s IH]; intros [|k]; simpl; auto.
Qed.

(** The equation of [count]: a match is counted and the scan resumes
    after it; otherwise the scan moves one character on. *)
Lemma count_from_unfold sub c s :
  sub <> "" ->
  Py.count_from sub 0 (String c s)
  = if Py.startswith (String c s) sub
    then S (Py.count_from sub 0 (drop_str (String.length sub) (String c s)))
    else Py.count_from sub 0 s.
Proof.
  intros Hsub. simpl. destruct (Py.startswith _ _); [|reflexivity].
  rewrite count_from_skip. destruct sub as [|a sub]; [congruence|].
  simpl. rewrite Nat.sub_0_r. reflexivity.
Qed.

Lemma lower_char_idemp c : Py.lower_char (Py.lower_char c) = Py.lower_char c.
Proof. destruct c as [[] [] [] [] [] [] [] []]; reflexivity. Qed.

(** Lower-casing is idempotent, keeps the length and commutes with
    stripping. *)
Lemma lower_idemp s : Py.lower (Py.lower s) = Py.lower s.
Proof. induction s; simpl; [|rewrite lower_char_idemp]; congruence. Qed.

Lemma lower_char_space c : Py.isspace (Py.lower_char c) = Py.isspace c.
Proof. destruct c as [[] [] [] [] [] [] [] []]; reflexivity. Qed.

Lemma lower_lstrip s : Py.lower (Py.lstrip s) = Py.lstrip (Py.lower s).
Proof.
  induction s as [|c s IH]; simpl; [reflexivity|].
  rewrite lower_char_space. destruct (Py.isspace c); [exact IH | reflexivity].
Qed.

Lemma lower_rstrip s : Py.lower (Py.rstrip s) = Py.rstrip (Py.lower s).
Proof.
  induction s as [|c s IH]; simpl; [reflexivity|].
  rewrite <- IH, lower_char_space.
  destruct (Py.rstrip s); simpl; [destruct (Py.isspace c)|]; reflexivity.
Qed.

Lemma lower_strip s : Py.lower (Py.strip s) = Py.strip (Py.lower s).
Proof. unfold Py.strip. rewrite lower_rstrip, lower_lstrip. reflexivity. Qed.

(** ** Facts about the scorer *)

Lemma min1_Qmin x : (Py.min1 x == Qmin x 1)%Q.
Proof.
  unfold Py.min1. destruct (Qle_bool x 1) eqn:E.
  - apply Qle_bool_iff in E. symmetry. apply Q.min_l. exact E.
  - assert (~ (x <= 1)%Q) as H by (rewrite <- Qle_bool_iff; congruence).
    symmetry. apply Q.min_r. lra.
Qed.

Lemma min1_unit x : (0 <= x)%Q -> (0 <= Py.min1 x <= 1)%Q.
Proof.
  intros Hx. unfold Py.min1. destruct (Qle_bool x 1) eqn:E.
  - apply Qle_bool_iff in E. lra.
  - lra.
Qed.

Lemma inject_nat_nonneg n : (0 <= inject_Z (Z.of_nat n))%Q.
Proof. change 0%Q with (inject_Z 0). rewrite <- Zle_Qle. lia. Qed.

Lemma raw_score_nonneg text skill : (0 <= raw_score text skill)%Q.
Proof.
  unfold raw_score.
  pose proof (inject_nat_nonneg (exact_count text skill)).
  pose proof (inject_nat_nonneg (word_matches text skill)).
  destruct (0 <? exact_count text skill)%nat; nra.
Qed.

Lemma base_score_unit text skill : (0 <= base_score text skill <= 1)%Q.
Proof. apply min1_unit, raw_score_nonneg. Qed.

Lemma score_skills_fold text (l : list string) (m : gmap string Q) k :
  foldl (fun skill_scores skill => <[skill := base_score text skill]> skill_scores) m l !! k
  = if decide (k ∈ l) then Some (base_score text k) else m !! k.
Proof.
  revert m. induction l as [|a l IH]; intros m; cbn [foldl].
  - rewrite decide_False; [reflexivity | apply not_elem_of_nil].
  - rewrite IH. destruct (decide (k ∈ l)) as [Hin|Hin].
    + rewrite decide_True; [reflexivity | by right].
    + destruct (decide (a = k)) as [->|Hne].
      * rewrite lookup_insert_eq, decide_True; [reflexivity | by left].
      * rewrite lookup_insert_ne by done. rewrite decide_False; [reflexivity|].
        rewrite elem_of_cons. intros [?|?]; [congruence | done].
Qed.

(** After the first loop every listed skill has its base score. *)
Lemma score_skills_lookup text (l : list string) k :
  score_skills text l !! k = if decide (k ∈ l) then Some (base_score text k) else None.
Proof. unfold score_skills. rewrite score_skills_fold, lookup_empty. reflexivity. Qed.

Section BoostFacts.
Variable keywords : list (string * Q).
Variable skill_len : string -> Z.
Variable text : string.
Local Abbreviation bv := (boost_value keywords skill_len text).

Lemma boost_skill_some (m : gmap string Q) k q :
  m !! k = Some q ->
  boost_skill keywords skill_len text m k = Some (<[k := bv k q]> m).
Proof.
  intros Hk. unfold boost_skill, boost_value.
  destruct (Py.contains _ _); [|by rewrite insert_id].
  destruct (first_boost _ _); [|by rewrite insert_id].
  rewrite Hk. reflexivity.
Qed.

Lemma boost_skills_spec (l : list string) : forall m : gmap string Q,
  (forall k, k ∈ l -> is_Some (m !! k)) ->
  exists m' : gmap string Q,
    boost_skills keywords skill_len text l m = Some m'
    /\ forall k, m' !! k = Nat.iter (occurrences k l) (bv k) <$> m !! k.
Proof.
  induction l as [|a l IH]; intros m Hm; simpl.
  - exists m. split; [reflexivity|]. intros k. by destruct (m !! k).
  - destruct (Hm a) as [q Hq]; [by left|].
    rewrite (boost_skill_some _ _ _ Hq). simpl.
    destruct (IH (<[a := bv a q]> m)) as (m' & Hrun & Hm').
    { intros k Hk. destruct (decide (a = k)) as [->|Hne].
      - rewrite lookup_insert_eq. eauto.
      - rewrite lookup_insert_ne by done. apply Hm. by right. }
    exists m'. split; [exact Hrun|]. intros k. rewrite Hm'.
    unfold occurrences. rewrite filter_cons.
    destruct (decide (a = k)) as [->|Hne].
    + rewrite lookup_insert_eq, Hq. simpl. by rewrite Nat.iter_swap.
    + by rewrite lookup_insert_ne.
Qed.

Lemma final_scores_spec (all_skills : list string) :
  exists scores : gmap string Q,
    final_scores keywords skill_len text all_skills = Some scores
    /\ forall k, scores !! k
         = if decide (k ∈ all_skills)
           then Some (Nat.iter (occurrences k all_skills) (bv k) (base_score text k))
           else None.
Proof.
  unfold final_scores.
  destruct (boost_skills_spec all_skills (score_skills text all_skills))
    as (m' & Hrun & Hm').
  { intros k Hk. rewrite score_skills_lookup, decide_True by done. eauto. }
  exists m'. split; [exact Hrun|]. intros k.
  rewrite Hm', score_skills_lookup. by destruct (decide _).
Qed.
End BoostFacts.

Lemma passes_lookup threshold (m : gmap string Q) k q :
  m !! k = Some q ->
  passes threshold m k = if Qle_bool (threshold * 0.5) q then Some (k, q) else None.
Proof. intros H. unfold passes. by rewrite H. Qed.

Lemma categorize_spec threshold all_tech (m : gmap string Q) (l : list string) :
  forall found_tech found_soft,
  (forall k, k ∈ l -> is_Some (m !! k)) ->
  categorize threshold all_tech m l found_tech found_soft
  = Some (found_tech ++ filter (fun it => fst it ∈ all_tech) (omap (passes threshold m) l),
          found_soft ++ filter (fun it => fst it ∉ all_tech) (omap (passes threshold m) l)).
Proof.
  induction l as [|a l IH]; intros ft fs Hm.
  - cbn. by rewrite !app_nil_r.
  - destruct (Hm a) as [q Hq]; [by left|].
    assert (forall k, k ∈ l -> is_Some (m !! k)) as Hm' by (intros; apply Hm; by right).
    cbn [categorize omap list_omap]. rewrite (passes_lookup _ _ _ _ Hq), Hq.
    cbn [mbind option_bind].
    destruct (Qle_bool (threshold * 0.5) q).
    + rewrite !filter_cons. cbn [fst]. case_bool_decide as Ht.
      * rewrite IH by done. rewrite decide_True by done.
        rewrite decide_False by (intros ?; done). by rewrite <- app_assoc.
      * rewrite IH by done. rewrite decide_False by done.
        rewrite decide_True by done. by rewrite <- app_assoc.
    + by rewrite IH.
Qed.

(** The sort only reorders the entries. *)
Lemma insert_desc_perm x l : insert_desc x l ≡ₚ x :: l.
Proof.
  induction l as [|y l IH]; simpl; [reflexivity|].
  destruct (Qlt_le_dec _ _); [|reflexivity].
  rewrite IH. apply perm_swap.
Qed.

Lemma sort_desc_perm l : sort_desc l ≡ₚ l.
Proof.
  induction l as [|x l IH]; simpl; [reflexivity|].
  rewrite insert_desc_perm. by rewrite IH.
Qed.

(** The scorer never raises: every key the loops read was written by
    the first loop.  Its result is the sorted selection of the entries
    that pass the filter. *)
Lemma rank_skills_spec keywords skill_len text threshold all_tech all_soft :
  exists scores : gmap string Q,
    final_scores keywords skill_len text (all_tech ++ all_soft) = Some scores
    /\ rank_skills keywords skill_len text threshold all_tech all_soft
       = Some (sort_desc (filter (fun it => fst it ∈ all_tech)
                            (omap (passes threshold scores) (all_tech ++ all_soft))),
               sort_desc (filter (fun it => fst it ∉ all_tech)
                            (omap (passes threshold scores) (all_tech ++ all_soft)))).
Proof.
  destruct (final_scores_spec keywords skill_len text (all_tech ++ all_soft))
    as (scores & Hrun & Hs).
  exists scores. split; [exact Hrun|].
  unfold rank_skills. rewrite Hrun. simpl.
  rewrite categorize_spec.
  - reflexivity.
  - intros k Hk. rewrite Hs, decide_True by done. eauto.
Qed.

Lemma first_boost_in keywords context boost :
  first_boost keywords context = Some boost ->
  exists keyword, (keyword, boost) ∈ keywords /\ Py.contains keyword context = true.
Proof.
  unfold first_boost. destruct (List.find _ keywords) as [[k b]|] eqn:E; [|discriminate].
  intros [= <-]. apply find_some in E as [Hin Hc]. exists k. split; [|exact Hc].
  by apply list_elem_of_In.
Qed.

Lemma boost_value_unit keywords skill_len text skill score :
  Forall (fun kv => (0 <= snd kv)%Q) keywords ->
  (0 <= score <= 1)%Q ->
  (0 <= boost_value keywords skill_len text skill score <= 1)%Q.
Proof.
  intros Hk Hs. unfold boost_value.
  destruct (Py.contains _ _); [|exact Hs].
  destruct (first_boost _ _) as [b|] eqn:E; [|exact Hs].
  apply first_boost_in in E as (k & Hin & _).
  rewrite Forall_forall in Hk. specialize (Hk _ Hin). simpl in Hk.
  apply min1_unit. nra.
Qed.

(** Final scores stay in [0, 1] when no factor of the table is
    negative. *)
Lemma final_score_unit keywords skill_len text (l : list string) scores k q :
  Forall (fun kv => (0 <= snd kv)%Q) keywords ->
  final_scores keywords skill_len text l = Some scores ->
  scores !! k = Some q -> (0 <= q <= 1)%Q.
Proof.
  intros Hk Hrun Hq.
  destruct (final_scores_spec keywords skill_len text l) as (m & Hm & Hl).
  rewrite Hrun in Hm. injection Hm as <-. rewrite Hl in Hq.
  destruct (decide (k ∈ l)); [|discriminate]. injection Hq as <-.
  apply Nat.iter_invariant.
  - intros x. by apply boost_value_unit.
  - apply base_score_unit.
Qed.

Lemma server_keywords_nonneg : Forall (fun kv => (0 <= snd kv)%Q) Server.keywords.
Proof. repeat constructor; simpl; lra. Qed.

Lemma app_keywords_nonneg : Forall (fun kv => (0 <= snd kv)%Q) App.importance_keywords.
Proof. repeat constructor; simpl; lra. Qed.

(** What the third loop and the sort keep: a skill is listed, with its
    final score, exactly when that score reaches half the threshold. *)
Lemma rank_skills_kept keywords skill_len text threshold all_tech all_soft :
  exists (scores : gmap string Q) found_tech found_soft,
    final_scores keywords skill_len text (all_tech ++ all_soft) = Some scores
    /\ rank_skills keywords skill_len text threshold all_tech all_soft
       = Some (found_tech, found_soft)
    /\ forall skill score,
         (skill, score) ∈ found_tech ++ found_soft
         <-> skill ∈ all_tech ++ all_soft /\ scores !! skill = Some score
             /\ (threshold * 0.5 <= score)%Q.
Proof.
  destruct (rank_skills_spec keywords skill_len text threshold all_tech all_soft)
    as (scores & Hrun & Hrank).
  eexists scores, _, _. split; [exact Hrun|]. split; [exact Hrank|].
  intros skill score.
  rewrite !sort_desc_perm, (elem_of_app (filter _ _)), !list_elem_of_filter,
    list_elem_of_omap.
  cbn [fst]. split.
  - intros H.
    assert (exists x, x ∈ all_tech ++ all_soft
                      /\ passes threshold scores x = Some (skill, score))
      as (x & Hx & Hp) by (destruct H as [[_ H]|[_ H]]; exact H).
    unfold passes in Hp. destruct (scores !! x) as [q|] eqn:Hq; [|discriminate].
    cbn in Hp. destruct (Qle_bool (threshold * 0.5) q) eqn:Hle; [|discriminate].
    injection Hp as -> ->. apply Qle_bool_iff in Hle. done.
  - intros (Hin & Hq & Hle).
    assert (passes threshold scores skill = Some (skill, score)) as Hp.
    { rewrite (passes_lookup _ _ _ _ Hq).
      apply Qle_bool_iff in Hle. by rewrite Hle. }
    destruct (decide (skill ∈ all_tech)); [left | right]; eauto.
Qed.

Lemma analyze_jd_rank jobs_csv job_description threshold :
  job_description <> "" ->
  Server.analyze_jd jobs_csv job_description threshold
  = match rank_skills Server.keywords Py.len (Py.lower job_description) threshold
            (fst (get_all_skills (load_dataset jobs_csv)))
            (snd (get_all_skills (load_dataset jobs_csv))) with
    | Some found => Ok found
    | None => ServerError
    end.
Proof.
  intros Hd. unfold Server.analyze_jd, Server.df.
  rewrite decide_False by done.
  destruct (get_all_skills _) as [all_tech all_soft]. cbn [fst snd].
  by destruct (rank_skills _ _ _ _ _ _) as [[? ?]|].
Qed.

Lemma extract_mandatory_skills_rank jobs_csv job_description threshold :
  (10 <= Py.len (Py.strip job_description))%Z ->
  App.extract_mandatory_skills jobs_csv job_description threshold
  = rank_skills App.importance_keywords (fun skill => Py.len (Py.lower skill))
      (Py.lower job_description) threshold
      (fst (get_all_skills (load_dataset jobs_csv)))
      (snd (get_all_skills (load_dataset jobs_csv))).
Proof.
  intros Hd. unfold App.extract_mandatory_skills, App.df.
  rewrite decide_False by (intros ->; vm_compute in Hd; congruence).
  destruct (Z.ltb_spec (Py.len (Py.strip job_description)) 10); [lia|].
  by destruct (get_all_skills _) as [all_tech all_soft].
Qed.

Lemma server_keeps_at_half_threshold (jobs_csv : list row)
    (job_description : string) (threshold : Q) :
  job_description <> "" ->
  exists (scores : gmap string Q) found_tech found_soft,
    final_scores Server.keywords Py.len (Py.lower job_description)
      (all_skills jobs_csv) = Some scores
    /\ Server.analyze_jd jobs_csv job_description threshold
       = Ok (found_tech, found_soft)
    /\ forall skill score,
         (skill, score) ∈ found_tech ++ found_soft
         <-> skill ∈ all_skills jobs_csv /\ scores !! skill = Some score
             /\ (threshold * 0.5 <= score)%Q.
Proof.
  intros Hd.
  destruct (rank_skills_kept Server.keywords Py.len (Py.lower job_description)
              threshold (fst (get_all_skills (load_dataset jobs_csv)))
              (snd (get_all_skills (load_dataset jobs_csv))))
    as (scores & ft & fs & Hrun & Hrank & Hkept).
  exists scores, ft, fs. split; [exact Hrun|]. split; [|exact Hkept].
  rewrite analyze_jd_rank by done. by rewrite Hrank.
Qed.

(** ** The claims *)

(** C1. For every skill of the vocabulary and every description, the
    base score is [0.7 + 0.1 * exactCount] when the skill occurs
    ([exactCount], the count of the lower-cased skill in the lower-cased
    text, is positive) and [0.05 * wordMatches] otherwise ([wordMatches]
    sums the counts of the skill's whitespace-delimited words), capped at
    1; it lies in [0, 1] and is what the first loop stores for the
    skill. *)
Theorem base_score_spec (job_description skill : string) (vocabulary : list string) :
  let text := Py.lower job_description in
  let exactCount := Py.count (Py.lower skill) text in
  let wordMatches :=
    sum_list ((fun word => Py.count word text) <$> Py.split (Py.lower skill)) in
  ((0 < exactCount)%nat ->
     (base_score text skill == Qmin (0.7 + 0.1 * inject_Z (Z.of_nat exactCount)) 1)%Q)
  /\ (exactCount = 0%nat ->
     (base_score text skill == Qmin (0.05 * inject_Z (Z.of_nat wordMatches)) 1)%Q)
  /\ (0 <= base_score text skill <= 1)%Q
  /\ (skill ∈ vocabulary ->
      score_skills text vocabulary !! skill = Some (base_score text skill)).
Proof.
  intros text exactCount wordMatches. repeat split.
  - intros Hpos. unfold base_score. rewrite min1_Qmin. unfold raw_score.
    fold text. change (exact_count text skill) with exactCount.
    apply Nat.ltb_lt in Hpos. rewrite Hpos.
    apply Q.min_compat; [ring | reflexivity].
  - intros Hzero. unfold base_score. rewrite min1_Qmin. unfold raw_score.
    change (exact_count text skill) with exactCount. rewrite Hzero.
    change (word_matches text skill) with wordMatches. cbn [Nat.ltb Nat.leb].
    apply Q.min_compat; [ring | reflexivity].
  - apply base_score_unit.
  - apply base_score_unit.
  - intros Hin. rewrite score_skills_lookup. by rewrite decide_True.
Qed.

(** C3. At both entry points, whatever the threshold, a skill is in the
    output, with its final (post-boost) score, if and only if it is in
    the vocabulary and that score is at least [threshold * 0.5]. *)
Theorem kept_iff_half_threshold (jobs_csv : list row) (job_description : string)
    (threshold : Q) :
  (job_description <> "" ->
   exists (scores : gmap string Q) found_tech found_soft,
     final_scores Server.keywords Py.len (Py.lower job_description)
       (all_skills jobs_csv) = Some scores
     /\ Server.analyze_jd jobs_csv job_description threshold
        = Ok (found_tech, found_soft)
     /\ forall skill score,
          (skill, score) ∈ found_tech ++ found_soft
          <-> skill ∈ all_skills jobs_csv /\ scores !! skill = Some score
              /\ (threshold * 0.5 <= score)%Q)
  /\ ((10 <= Py.len (Py.strip job_description))%Z ->
   exists (scores : gmap string Q) found_tech found_soft,
     final_scores App.importance_keywords (fun skill => Py.len (Py.lower skill))
       (Py.lower job_description) (all_skills jobs_csv) = Some scores
     /\ App.extract_mandatory_skills jobs_csv job_description threshold
        = Some (found_tech, found_soft)
     /\ forall skill score,
          (skill, score) ∈ found_tech ++ found_soft
          <-> skill ∈ all_skills jobs_csv /\ scores !! skill = Some score
              /\ (threshold * 0.5 <= score)%Q).
Proof.
  split; intros Hd.
  - by apply server_keeps_at_half_threshold.
  - destruct (rank_skills_kept App.importance_keywords
                (fun skill => Py.len (Py.lower skill)) (Py.lower job_description)
                threshold (fst (get_all_skills (load_dataset jobs_csv)))
                (snd (get_all_skills (load_dataset jobs_csv))))
      as (scores & ft & fs & Hrun & Hrank & Hkept).
    exists scores, ft, fs. split; [exact Hrun|]. split; [|exact Hkept].
    rewrite extract_mandatory_skills_rank by done. exact Hrank.
Qed.

(** C8 (as corrected). The service does not validate the threshold: for
    every threshold, inside [0, 1] or not, a request with a non-empty
    description succeeds and the threshold is used as it is in the filter
    [score >= threshold * 0.5]; a threshold above 2 empties both lists and
    a negative threshold keeps every skill of the vocabulary. *)
Theorem threshold_used_unvalidated (jobs_csv : list row) (job_description : string)
    (threshold : Q) :
  job_description <> "" ->
  exists found_tech found_soft,
    Server.analyze_jd jobs_csv job_description threshold = Ok (found_tech, found_soft)
    /\ ((2 < threshold)%Q -> found_tech = [] /\ found_soft = [])
    /\ ((threshold < 0)%Q ->
        forall skill, skill ∈ all_skills jobs_csv ->
                      exists score, (skill, score) ∈ found_tech ++ found_soft).
Proof.
  intros Hd.
  destruct (server_keeps_at_half_threshold jobs_csv job_description threshold Hd)
    as (scores & ft & fs & Hrun & Hans & Hkept).
  exists ft, fs. split; [exact Hans|]. split.
  - intros Hthr.
    assert (forall it, it ∉ ft ++ fs) as Hnone.
    { intros [skill score] Hin. apply Hkept in Hin as (_ & Hq & Hle).
      pose proof (final_score_unit _ _ _ _ _ _ _ server_keywords_nonneg Hrun Hq).
      lra. }
    split.
    + destruct ft as [|it ft]; [reflexivity|]. destruct (Hnone it). by left.
    + destruct fs as [|it fs]; [reflexivity|]. destruct (Hnone it).
      apply elem_of_app. right. by left.
  - intros Hthr skill Hin.
    destruct (final_scores_spec Server.keywords Py.len (Py.lower job_description)
                (all_skills jobs_csv)) as (m & Hm & Hl).
    rewrite Hrun in Hm. injection Hm as <-.
    specialize (Hl skill). rewrite decide_True in Hl by done.
    eexists. apply Hkept. split; [exact Hin|]. split; [exact Hl|].
    pose proof (final_score_unit _ _ _ _ _ _ _ server_keywords_nonneg Hrun Hl).
    lra.
Qed.

(** ** Sorted sets and the vocabulary *)

Lemma sorted_spec (X : gset string) :
  StronglySorted String.le (Py.sorted X) /\ NoDup (Py.sorted X)
  /\ forall x, x ∈ Py.sorted X <-> x ∈ X.
Proof.
  unfold Py.sorted. split; [|split].
  - apply StronglySorted_merge_sort; apply _.
  - rewrite merge_sort_Permutation. apply NoDup_elements.
  - intros x. rewrite merge_sort_Permutation. apply elem_of_elements.
Qed.

Lemma vocabulary_nodup (df : list row) :
  NoDup (fst (get_all_skills df)) /\ NoDup (snd (get_all_skills df)).
Proof. unfold get_all_skills. cbn [fst snd]. split; apply sorted_spec. Qed.

Lemma vocabulary_no_empty (df : list row) :
  ~ ("" ∈ fst (get_all_skills df)) /\ ~ ("" ∈ snd (get_all_skills df)).
Proof.
  unfold get_all_skills. cbn [fst snd].
  split; intros H; apply sorted_spec in H;
    apply elem_of_difference in H as [_ H]; apply H; by apply elem_of_singleton.
Qed.

Lemma occurrences_not_in k (l : list string) : k ∉ l -> occurrences k l = 0.
Proof.
  unfold occurrences. induction l as [|a l IH]; intros Hk; [reflexivity|].
  apply not_elem_of_cons in Hk as [Hne Hk].
  rewrite filter_cons, decide_False by congruence. by apply IH.
Qed.

Lemma occurrences_nodup k (l : list string) :
  NoDup l -> k ∈ l -> occurrences k l = 1.
Proof.
  induction 1 as [|a l Hnotin Hnd IH]; intros Hin.
  - by apply elem_of_nil in Hin.
  - unfold occurrences. rewrite filter_cons. destruct (decide (a = k)) as [->|Hne].
    + cbn [length]. f_equal. by apply occurrences_not_in.
    + apply IH. apply elem_of_cons in Hin as [->|Hin]; [done | exact Hin].
Qed.

Lemma occurrences_app k (l1 l2 : list string) :
  occurrences k (l1 ++ l2) = occurrences k l1 + occurrences k l2.
Proof. unfold occurrences. by rewrite filter_app, length_app. Qed.

(** The entries of the third loop that carry the name [k]. *)
Lemma filter_name_passes threshold (m : gmap string Q) (l : list string) k q :
  m !! k = Some q ->
  filter (fun it : item => fst it = k) (omap (passes threshold m) l)
  = if Qle_bool (threshold * 0.5) q then replicate (occurrences k l) (k, q) else [].
Proof.
  intros Hq. unfold occurrences. induction l as [|a l IH].
  - by destruct (Qle_bool _ _).
  - cbn [omap list_omap]. rewrite (filter_cons (fun x => x = k)).
    destruct (decide (a = k)) as [->|Hne].
    + rewrite (passes_lookup _ _ _ _ Hq).
      destruct (Qle_bool (threshold * 0.5) q) eqn:Hle.
      * rewrite filter_cons, decide_True by done. cbn [length replicate].
        f_equal. rewrite IH. reflexivity.
      * exact IH.
    + destruct (passes threshold m a) as [it|] eqn:Hp; [|exact IH].
      rewrite filter_cons, decide_False; [exact IH|].
      unfold passes in Hp. destruct (m !! a) as [qa|]; [|discriminate].
      cbn in Hp. destruct (Qle_bool _ qa); [|discriminate].
      injection Hp as <-. done.
Qed.

(** A skill of both sets is met twice by every loop; once its final
    score passes the filter it is listed twice among the technical
    skills, and it is never listed among the soft skills. *)
Lemma rank_skills_shared keywords skill_len text threshold all_tech all_soft skill :
  NoDup all_tech -> NoDup all_soft -> skill ∈ all_tech -> skill ∈ all_soft ->
  occurrences skill (all_tech ++ all_soft) = 2
  /\ exists (scores : gmap string Q) score found_tech found_soft,
       final_scores keywords skill_len text (all_tech ++ all_soft) = Some scores
       /\ scores !! skill = Some score
       /\ rank_skills keywords skill_len text threshold all_tech all_soft
          = Some (found_tech, found_soft)
       /\ ((threshold * 0.5 <= score)%Q ->
           filter (fun it : item => fst it = skill) found_tech
           = [(skill, score); (skill, score)])
       /\ filter (fun it : item => fst it = skill) found_soft = [].
Proof.
  intros Hnt Hns Ht Hs.
  assert (occurrences skill (all_tech ++ all_soft) = 2) as Hocc.
  { rewrite occurrences_app, !occurrences_nodup by done. reflexivity. }
  split; [exact Hocc|].
  destruct (rank_skills_spec keywords skill_len text threshold all_tech all_soft)
    as (scores & Hrun & Hrank).
  destruct (final_scores_spec keywords skill_len text (all_tech ++ all_soft))
    as (m & Hm & Hl).
  rewrite Hrun in Hm. injection Hm as <-.
  specialize (Hl skill). rewrite decide_True in Hl by (apply elem_of_app; by left).
  eexists scores, _, _, _. split; [exact Hrun|]. split; [exact Hl|].
  split; [exact Hrank|]. split.
  - intros Hle. symmetry. apply (replicate_Permutation 2).
    rewrite sort_desc_perm.
    rewrite list_filter_filter_l by (intros [? ?]; cbn; by intros ->).
    apply Qle_bool_iff in Hle.
    rewrite (filter_name_passes _ _ _ _ _ Hl), Hle, Hocc. reflexivity.
  - apply Permutation_nil_r. rewrite sort_desc_perm.
    rewrite list_filter_filter. clear Hrank.
    induction (omap _ _) as [|[name q] l IH]; [reflexivity|].
    rewrite filter_cons, decide_False; [exact IH|].
    cbn. intros [-> Hn]. done.
Qed.

(** C10. A skill string of both vocabulary sets is iterated over twice,
    once per set of the concatenated vocabulary; when its final score
    passes the filter it is listed twice among the technical skills, and
    it is never listed among the soft skills.  At both entry points. *)
Theorem shared_skill_listed_twice_as_technical (jobs_csv : list row)
    (job_description : string) (threshold : Q) (skill : string) :
  skill ∈ fst (get_all_skills (load_dataset jobs_csv)) ->
  skill ∈ snd (get_all_skills (load_dataset jobs_csv)) ->
  occurrences skill (all_skills jobs_csv) = 2
  /\ (job_description <> "" ->
      exists (scores : gmap string Q) score found_tech found_soft,
        final_scores Server.keywords Py.len (Py.lower job_description)
          (all_skills jobs_csv) = Some scores
        /\ scores !! skill = Some score
        /\ Server.analyze_jd jobs_csv job_description threshold
           = Ok (found_tech, found_soft)
        /\ ((threshold * 0.5 <= score)%Q ->
            filter (fun it : item => fst it = skill) found_tech
            = [(skill, score); (skill, score)])
        /\ filter (fun it : item => fst it = skill) found_soft = [])
  /\ ((10 <= Py.len (Py.strip job_description))%Z ->
      exists (scores : gmap string Q) score found_tech found_soft,
        final_scores App.importance_keywords (fun skill => Py.len (Py.lower skill))
          (Py.lower job_description) (all_skills jobs_csv) = Some scores
        /\ scores !! skill = Some score
        /\ App.extract_mandatory_skills jobs_csv job_description threshold
           = Some (found_tech, found_soft)
        /\ ((threshold * 0.5 <= score)%Q ->
            filter (fun it : item => fst it = skill) found_tech
            = [(skill, score); (skill, score)])
        /\ filter (fun it : item => fst it = skill) found_soft = []).
Proof.
  intros Ht Hs.
  destruct (vocabulary_nodup (load_dataset jobs_csv)) as [Hnt Hns].
  split; [|split].
  - by apply (rank_skills_shared [] Py.len "" 0%Q).
  - intros Hd.
    destruct (rank_skills_shared Server.keywords Py.len (Py.lower job_description)
                threshold _ _ skill Hnt Hns Ht Hs)
      as (_ & scores & score & ft & fs & Hrun & Hq & Hrank & Htech & Hsoft).
    exists scores, score, ft, fs. repeat split; try done.
    rewrite analyze_jd_rank by done. by rewrite Hrank.
  - intros Hd.
    destruct (rank_skills_shared App.importance_keywords
                (fun skill => Py.len (Py.lower skill)) (Py.lower job_description)
                threshold _ _ skill Hnt Hns Ht Hs)
      as (_ & scores & score & ft & fs & Hrun & Hq & Hrank & Htech & Hsoft).
    exists scores, score, ft, fs. repeat split; try done.
    by rewrite extract_mandatory_skills_rank.
Qed.

(** ** The contextual boost *)

(** The second loop changes the score of a skill once per listing of the
    skill in the concatenated vocabulary. *)
Lemma final_score_iterated keywords skill_len text (vocabulary : list string) skill :
  skill ∈ vocabulary ->
  exists scores : gmap string Q,
    final_scores keywords skill_len text vocabulary = Some scores
    /\ scores !! skill
       = Some (Nat.iter (occurrences skill vocabulary)
                 (boost_value keywords skill_len text skill)
                 (base_score text skill)).
Proof.
  intros Hin.
  destruct (final_scores_spec keywords skill_len text vocabulary) as (m & Hm & Hl).
  exists m. split; [exact Hm|]. rewrite Hl. by rewrite decide_True.
Qed.

(** For a skill listed once (a skill of one set only) the claim C2
    holds: no boost when the skill does not occur in the text, else the
    factor of the first keyword of the table found in the window of 50
    characters around its first occurrence, applied once and capped. *)
Lemma single_listing_boosted_once keywords skill_len text
    (vocabulary : list string) skill :
  occurrences skill vocabulary = 1 ->
  exists scores : gmap string Q,
    final_scores keywords skill_len text vocabulary = Some scores
    /\ scores !! skill
       = Some (if Py.contains (Py.lower skill) text then
                 let idx := Py.find (Py.lower skill) text in
                 let window :=
                   Py.slice text (Z.max 0 (idx - 50))
                     (Z.min (Py.len text) (idx + skill_len skill + 50)) in
                 match snd <$> List.find (fun kv => Py.contains (fst kv) window)
                                 keywords with
                 | Some boost => Py.min1 (base_score text skill * boost)
                 | None => base_score text skill
                 end
               else base_score text skill).
Proof.
  intros Hocc.
  assert (skill ∈ vocabulary) as Hin.
  { destruct (decide (skill ∈ vocabulary)) as [|Hn]; [done|].
    apply occurrences_not_in in Hn. congruence. }
  destruct (final_score_iterated keywords skill_len text vocabulary skill Hin)
    as (scores & Hrun & Hq).
  exists scores. split; [exact Hrun|]. rewrite Hq, Hocc. reflexivity.
Qed.

(** C2 (the code departs from it). In [overlap_csv] the skill
    [presentation] is technical in one row and soft in another, so the
    second loop of the service meets it twice: on the description
    "Presentation skills are required" its base score 0.8 is multiplied
    by 1.2 twice, and the final score is 1 and not the 0.96 of a single
    boost.  The screener does the same with its own table: with
    "optional" in the window the score is halved twice, which leaves at
    most 0.2 where a single boost leaves at least 0.39; at the threshold
    0.3 the entry is still listed, twice. *)
Theorem shared_skill_boosted_twice :
  let text := Py.lower "Presentation skills are required" in
  (base_score text "presentation" == 0.8)%Q
  /\ first_boost Server.keywords (context_of Py.len text "presentation") = Some 1.2%Q
  /\ (Py.min1 (0.8 * 1.2) == 0.96)%Q
  /\ Server.analyze_jd overlap_csv "Presentation skills are required" 0.4
     = Ok ([("presentation", 1%Q); ("presentation", 1%Q)], [])
  /\ let text := Py.lower "Presentation skills are optional" in
     first_boost App.importance_keywords
       (context_of (fun skill => Py.len (Py.lower skill)) text "presentation")
     = Some 0.5%Q
     /\ (0.39 <= Py.min1 (base_score text "presentation" * 0.5))%Q
     /\ exists score,
          App.extract_mandatory_skills overlap_csv "Presentation skills are optional" 0.3
          = Some ([("presentation", score); ("presentation", score)], [])
          /\ (0.3 * 0.5 <= score)%Q /\ (score <= 0.2)%Q.
Proof.
  repeat split; try (vm_compute; reflexivity); try (vm_compute; discriminate).
  eexists. split; [vm_compute; reflexivity|].
  split; vm_compute; discriminate.
Qed.

(** ** Short descriptions *)

Lemma lstrip_length s : (String.length (Py.lstrip s) <= String.length s)%nat.
Proof.
  induction s as [|c s IH]; simpl; [lia|]. destruct (Py.isspace c); simpl; lia.
Qed.

Lemma rstrip_length s : (String.length (Py.rstrip s) <= String.length s)%nat.
Proof.
  induction s as [|c s IH]; simpl; [lia|].
  destruct (Py.rstrip s); [destruct (Py.isspace c)|]; simpl in *; lia.
Qed.

Lemma strip_length s : (Py.len (Py.strip s) <= Py.len s)%Z.
Proof.
  unfold Py.len, Py.strip.
  pose proof (rstrip_length (Py.lstrip s)). pose proof (lstrip_length s). lia.
Qed.

(** C4 (as stated, it fails). "sql and c#" has 8 characters that are not
    whitespace, yet the screener scores it; "sql" has 3 and the service
    scores it. *)
Lemma short_description_still_scored :
  (non_space_count "sql and c#" < 10)%nat
  /\ App.extract_mandatory_skills sample_csv "sql and c#" 0.4 <> Some ([], [])
  /\ (non_space_count "sql" < 10)%nat
  /\ Server.analyze_jd sample_csv "sql" 0.4 <> Ok ([], []).
Proof.
  split; [vm_compute; lia|]. split; [vm_compute; discriminate|].
  split; [vm_compute; lia|]. vm_compute; discriminate.
Qed.

(** C4 (as corrected). For every description whose length after
    stripping leading and trailing whitespace is below 10, in particular
    for every description of fewer than 10 characters, the screener's
    scorer returns two empty sequences, whatever the table and the
    threshold: the scoring loops are not run. *)
Theorem short_description_empty (jobs_csv : list row) (job_description : string)
    (similarity_threshold : Q) :
  (Py.len (Py.strip job_description) < 10)%Z \/ (Py.len job_description < 10)%Z ->
  App.extract_mandatory_skills jobs_csv job_description similarity_threshold
  = Some ([], []).
Proof.
  intros Hshort. unfold App.extract_mandatory_skills.
  destruct (decide (job_description = "")); [reflexivity|].
  pose proof (strip_length job_description).
  destruct (Z.ltb_spec (Py.len (Py.strip job_description)) 10); [reflexivity | lia].
Qed.

Lemma short_description_empty_witness :
  (Py.len (Py.strip "  python  ") < 10)%Z
  /\ App.extract_mandatory_skills sample_csv "  python  " 0.4 = Some ([], []).
Proof.
  assert (Py.len (Py.strip "  python  ") < 10)%Z as Hshort by (vm_compute; reflexivity).
  split; [exact Hshort|].
  apply (short_description_empty sample_csv "  python  " 0.4).
  left. exact Hshort.
Defined.

(** ** The skill matcher *)

Lemma extract_skills_from_text_spec (text : string) (skill_list : list string) :
  StronglySorted String.le (extract_skills_from_text text skill_list)
  /\ NoDup (extract_skills_from_text text skill_list)
  /\ forall skill,
       skill ∈ extract_skills_from_text text skill_list
       <-> skill ∈ skill_list /\ Py.contains (Py.lower skill) text = true.
Proof.
  unfold extract_skills_from_text, Py.set.
  split; [apply sorted_spec|]. split; [apply sorted_spec|].
  intros skill.
  rewrite (proj2 (proj2 (sorted_spec _))), elem_of_list_to_set, list_elem_of_filter.
  tauto.
Qed.

(** The text the service matches against is lower-cased where it is
    extracted. *)
Lemma extract_text_from_pdf_lower (pages : list (option string)) :
  Py.lower (Server.extract_text_from_pdf pages) = Server.extract_text_from_pdf pages.
Proof.
  unfold Server.extract_text_from_pdf. by rewrite lower_strip, lower_idemp.
Qed.

(** C7 (as stated, it fails). The matcher does not lower-case the text:
    on the text "PYTHON" the skill "python" is not matched, though the
    lower-cased skill occurs in the lower-cased text. *)
Lemma matcher_does_not_lower_text :
  ~ ("python" ∈ extract_skills_from_text "PYTHON" ["python"])
  /\ Py.contains (Py.lower "python") (Py.lower "PYTHON") = true.
Proof.
  split; [|reflexivity]. intros H.
  apply extract_skills_from_text_spec in H as [_ H]. discriminate H.
Qed.

(** C7 (as corrected). For every lower-cased text, as the callers pass
    it, and every list of candidate skills, the matcher returns a sorted,
    duplicate-free subset of the list; a skill of the list is in the
    result if and only if the lower-cased skill occurs as a literal
    substring of the text; in particular a skill whose lower-casing does
    not occur in the text is not in the result for the one-skill list. *)
Theorem matcher_spec (text : string) (skill_list : list string) :
  Py.lower text = text ->
  StronglySorted String.le (extract_skills_from_text text skill_list)
  /\ NoDup (extract_skills_from_text text skill_list)
  /\ extract_skills_from_text text skill_list ⊆ skill_list
  /\ (forall skill,
        skill ∈ extract_skills_from_text text skill_list
        <-> skill ∈ skill_list
            /\ exists a b, Py.lower text
                           = String.append a (String.append (Py.lower skill) b))
  /\ (forall s,
        ~ (exists a b, Py.lower text
                       = String.append a (String.append (Py.lower s) b)) ->
        ~ (s ∈ extract_skills_from_text text [s])).
Proof.
  intros Hlow.
  destruct (extract_skills_from_text_spec text skill_list) as (Hs & Hn & Hin).
  split; [exact Hs|]. split; [exact Hn|]. split; [|split].
  - intros skill Hskill. by apply Hin in Hskill as [? _].
  - intros skill. rewrite Hin, Hlow, contains_spec. reflexivity.
  - intros s Hnot Hs1.
    apply extract_skills_from_text_spec in Hs1 as [_ Hc].
    apply Hnot. rewrite Hlow. by apply contains_spec.
Qed.

Lemma matcher_spec_witness :
  Py.lower "i have experience in python and sql"
  = "i have experience in python and sql"
  /\ extract_skills_from_text "i have experience in python and sql"
       ["sql"; "python"; "machine learning"; "python"]
     ⊆ ["sql"; "python"; "machine learning"; "python"].
Proof.
  split; [reflexivity|].
  exact (proj1 (proj2 (proj2
           (matcher_spec "i have experience in python and sql"
              ["sql"; "python"; "machine learning"; "python"] eq_refl)))).
Defined.

Example matcher_ex :
  extract_skills_from_text "i have experience in python and sql"
    ["sql"; "python"; "machine learning"; "python"]
  = ["python"; "sql"].
Proof. vm_compute. reflexivity. Qed.

(** ** The role skill resolver *)

Lemma lower_not_empty s : s <> "" -> Py.lower s <> "".
Proof. destruct s; [congruence | discriminate]. Qed.

Lemma server_clean_skills_spec (raw : list string) :
  StronglySorted String.le (Server.clean_skills raw)
  /\ NoDup (Server.clean_skills raw)
  /\ ~ ("" ∈ Server.clean_skills raw)
  /\ forall s,
       s ∈ Server.clean_skills raw
       <-> exists token, token ∈ raw /\ Py.strip token <> ""
                         /\ s = Py.lower (Py.strip token).
Proof.
  unfold Server.clean_skills, Py.set.
  assert (forall s,
    s ∈ Py.sorted (list_to_set ((fun s => Py.lower (Py.strip s))
                                  <$> filter (fun s => Py.strip s <> "") raw))
    <-> exists token, token ∈ raw /\ Py.strip token <> ""
                      /\ s = Py.lower (Py.strip token)) as Hin.
  { intros s.
    rewrite (proj2 (proj2 (sorted_spec _))), elem_of_list_to_set, list_elem_of_fmap.
    split.
    - intros (token & -> & Ht). apply list_elem_of_filter in Ht as [Hne Ht]. eauto.
    - intros (token & Ht & Hne & ->). exists token. split; [reflexivity|].
      apply list_elem_of_filter. done. }
  split; [apply sorted_spec|]. split; [apply sorted_spec|]. split; [|exact Hin].
  intros H. apply Hin in H as (token & _ & Hne & Heq).
  symmetry in Heq. by apply lower_not_empty in Heq.
Qed.

(** The service follows C5 on every non-empty selection of rows: each
    field is split on commas, the tokens are stripped and lower-cased,
    the empty ones are dropped, both sets come out sorted without
    duplicates, and the reference text joins the technical list and the
    soft list with single spaces. *)
Lemma server_skills_of_rows_spec (filtered : list row) :
  filtered <> [] ->
  exists tech soft,
    Server.skills_of_rows filtered = (tech, soft, Py.join " " (tech ++ soft))
    /\ StronglySorted String.le tech /\ NoDup tech
    /\ StronglySorted String.le soft /\ NoDup soft
    /\ ~ ("" ∈ tech) /\ ~ ("" ∈ soft)
    /\ (forall s, s ∈ tech
          <-> exists r token,
                r ∈ filtered /\ token ∈ Py.split_on "," (technical_skills r)
                /\ Py.strip token <> "" /\ s = Py.lower (Py.strip token))
    /\ (forall s, s ∈ soft
          <-> exists r token,
                r ∈ filtered /\ token ∈ Py.split_on "," (soft_skills r)
                /\ Py.strip token <> "" /\ s = Py.lower (Py.strip token)).
Proof.
  intros Hne.
  assert (forall col s,
    s ∈ Server.clean_skills (r ← filtered; Py.split_on "," (col r))
    <-> exists r token,
          r ∈ filtered /\ token ∈ Py.split_on "," (col r)
          /\ Py.strip token <> "" /\ s = Py.lower (Py.strip token)) as Hin.
  { intros col s. rewrite (proj2 (proj2 (proj2 (server_clean_skills_spec _)))).
    split.
    - intros (token & Ht & Hs & ->). apply list_elem_of_bind in Ht as (r & Ht & Hr).
      eauto 6.
    - intros (r & token & Hr & Ht & Hs & ->). exists token. split; [|done].
      apply list_elem_of_bind. eauto. }
  exists (Server.clean_skills (r ← filtered; Py.split_on "," (technical_skills r))),
         (Server.clean_skills (r ← filtered; Py.split_on "," (soft_skills r))).
  split; [destruct filtered; [congruence | reflexivity]|].
  repeat split; try apply server_clean_skills_spec; try apply Hin.
Qed.

(** C5 (the screener departs from it). With a trailing comma in a field
    the screener's resolver keeps the empty token as a skill and starts
    the reference text with a space; the service's resolver drops it. *)
Theorem screener_keeps_empty_token :
  App.get_job_skills [Row "Developer" "python, sql," "teamwork"]
    literal_contains "developer"
  = Some ([""; "python"; "sql"], ["teamwork"], " python sql teamwork")
  /\ Server.get_job_skills [Row "Developer" "python, sql," "teamwork"]
       literal_contains "developer"
     = Some (["python"; "sql"], ["teamwork"], "python sql teamwork").
Proof. split; vm_compute; reflexivity. Qed.

Lemma filter_none {A} (P : A -> Prop) `{forall x, Decision (P x)} (l : list A) :
  (forall x, x ∈ l -> ~ P x) -> filter P l = [].
Proof.
  induction l as [|a l IH]; intros Hl; [reflexivity|].
  rewrite filter_cons, decide_False by (apply Hl; by left).
  apply IH. intros x Hx. apply Hl. by right.
Qed.

(** On the part of pandas' search that is modelled, a pattern of
    ordinary characters is looked for literally. *)
Lemma re_match_literal pat s :
  re_match (Literal <$> String.list_ascii_of_string pat) s = Py.startswith s pat.
Proof.
  revert s. induction pat as [|a pat IH]; intros s; [reflexivity|].
  destruct s as [|c s]; [reflexivity|].
  cbn [String.list_ascii_of_string fmap list_fmap re_match re_atom_matches
       Py.startswith].
  by rewrite IH.
Qed.

Lemma re_search_literal pat s :
  re_search (Literal <$> String.list_ascii_of_string pat) s = Py.contains pat s.
Proof.
  induction s as [|c s IH]; cbn [re_search Py.contains]; rewrite re_match_literal;
    [reflexivity|].
  by rewrite IH.
Qed.

Lemma re_compile_plain pat :
  re_plain pat = true ->
  existsb re_special (String.list_ascii_of_string pat) = false
  /\ re_compile 0 pat = Some (Literal <$> String.list_ascii_of_string pat).
Proof.
  unfold re_plain. induction pat as [|c pat IH]; [done|].
  cbn [String.list_ascii_of_string forallb existsb re_compile fmap list_fmap].
  rewrite andb_true_iff, negb_true_iff, !orb_false_iff.
  intros ((((Hs & Hdot) & Ho) & Hc) & Hrest).
  destruct (IH Hrest) as [Hn Hcomp].
  rewrite Hs, Hn, Ho, Hc, Hdot, Hcomp. done.
Qed.

Lemma regex_contains_plain pat :
  re_plain pat = true ->
  exists title_matches,
    regex_contains pat = Some title_matches
    /\ forall title, title_matches title = Py.contains pat title.
Proof.
  intros Hp. destruct (re_compile_plain pat Hp) as [Hn Hc].
  exists (re_search (Literal <$> String.list_ascii_of_string pat)). split.
  - unfold regex_contains. by rewrite Hn, Hc.
  - apply re_search_literal.
Qed.

(** C6 (as stated, it fails). The role name is handed to pandas as a
    regular expression.  "D.ta" is a substring of no title of
    [sample_csv], yet the service resolves it to the row "data
    scientist"; "(" is a substring of no title either, yet the resolver
    raises and the handler answers 500. *)
Lemma role_read_as_pattern :
  (forall r, r ∈ sample_csv ->
     Py.contains (Py.lower "D.ta") (Py.lower (job_title r)) = false
     /\ Py.contains (Py.lower "(") (Py.lower (job_title r)) = false)
  /\ Server.get_job_skills sample_csv regex_contains "D.ta"
     = Some (["machine learning"; "python"; "sql"], ["communication"],
             "machine learning python sql communication")
  /\ Server.get_job_skills sample_csv regex_contains "(" = None
  /\ Server.analyze_resume sample_csv regex_contains (fun _ _ => Some 0%Q)
       (Some []) (Some "(")
     = ServerError.
Proof.
  split; [|repeat split; vm_compute; reflexivity].
  intros r Hr. apply list_elem_of_singleton in Hr as ->. split; reflexivity.
Qed.

(** C6, amended. When pandas accepts the lower-cased role name as a
    pattern and finds it in the title of no row of the table (titles are
    lower-cased when the table is loaded), the resolver returns the empty
    technical list, the empty soft list and the empty reference text, and
    the screening answers 404 "Job role not found in dataset" instead of
    raising.  For a role name of ordinary characters the search is the
    substring containment of the claim. *)
Theorem role_not_found (jobs_csv : list row)
    (str_contains : string -> option (string -> bool))
    (match_score : string -> string -> option Q)
    (resume_text job_role : string) (title_matches : string -> bool) :
  str_contains (Py.lower job_role) = Some title_matches ->
  (forall r, r ∈ jobs_csv -> title_matches (Py.lower (job_title r)) = false) ->
  Server.get_job_skills jobs_csv str_contains job_role = Some ([], [], "")
  /\ Server.screen jobs_csv str_contains match_score resume_text job_role
     = NotFound "Job role not found in dataset"
  /\ (job_role <> "" ->
      forall pages,
        Server.analyze_resume jobs_csv str_contains match_score
          (Some pages) (Some job_role)
        = NotFound "Job role not found in dataset")
  /\ (re_plain (Py.lower job_role) = true ->
      exists literally,
        regex_contains (Py.lower job_role) = Some literally
        /\ forall title, literally title = Py.contains (Py.lower job_role) title).
Proof.
  intros Hpat Hnone.
  assert (Server.get_job_skills jobs_csv str_contains job_role = Some ([], [], ""))
    as Hget.
  { unfold Server.get_job_skills. rewrite Hpat. cbn [mbind option_bind].
    rewrite filter_none; [reflexivity|].
    intros r Hr. unfold Server.df, load_dataset in Hr.
    apply list_elem_of_fmap in Hr as (r' & -> & Hr'). cbn [job_title].
    rewrite (Hnone _ Hr'). discriminate. }
  assert (Server.screen jobs_csv str_contains match_score resume_text job_role
          = NotFound "Job role not found in dataset") as Hscreen.
  { unfold Server.screen. rewrite Hget. reflexivity. }
  split; [exact Hget|]. split; [exact Hscreen|].
  split; [|apply regex_contains_plain].
  intros Hrole pages. unfold Server.analyze_resume.
  destruct job_role as [|c job_role]; [congruence|].
  unfold Server.screen. rewrite Hget. reflexivity.
Qed.

Lemma role_not_found_witness :
  regex_contains (Py.lower "Nurse")
  = Some (re_search (Literal <$> String.list_ascii_of_string "nurse"))
  /\ (forall r, r ∈ sample_csv ->
        re_search (Literal <$> String.list_ascii_of_string "nurse")
          (Py.lower (job_title r)) = false)
  /\ Server.get_job_skills sample_csv regex_contains "Nurse" = Some ([], [], "").
Proof.
  assert (forall r, r ∈ sample_csv ->
            re_search (Literal <$> String.list_ascii_of_string "nurse")
              (Py.lower (job_title r)) = false) as Hnone.
  { intros r Hr. apply list_elem_of_singleton in Hr as ->. reflexivity. }
  split; [reflexivity|]. split; [exact Hnone|].
  exact (proj1 (role_not_found sample_csv regex_contains
                  (fun _ _ => None) "" "Nurse"
                  (re_search (Literal <$> String.list_ascii_of_string "nurse"))
                  eq_refl Hnone)).
Defined.

(** ** Witnesses and the remaining counterexample *)

(** C8 (as stated, it fails). The service accepts thresholds outside
    [0, 1] and uses them: with 5 nothing passes the filter, with -1 every
    skill of the vocabulary does, even at score 0. *)
Lemma out_of_range_threshold_accepted :
  Server.analyze_jd sample_csv "Python is required for this mandatory role" 5
  = Ok ([], [])
  /\ exists found_tech found_soft,
       Server.analyze_jd sample_csv "Python is required for this mandatory role" (-1)
       = Ok (found_tech, found_soft)
       /\ fst <$> found_tech = ["python"; "machine learning"; "sql"]
       /\ fst <$> found_soft = ["communication"].
Proof.
  split; [vm_compute; reflexivity|].
  eexists _, _. split; [vm_compute; reflexivity|]. split; reflexivity.
Qed.

Lemma threshold_used_unvalidated_witness :
  "sql" <> ""
  /\ exists found_tech found_soft,
       Server.analyze_jd sample_csv "sql" 7 = Ok (found_tech, found_soft)
       /\ found_tech = [] /\ found_soft = [].
Proof.
  assert ("sql" <> "") as Hd by discriminate.
  split; [exact Hd|].
  destruct (threshold_used_unvalidated sample_csv "sql" 7 Hd)
    as (ft & fs & Hans & Hbig & _).
  exists ft, fs. split; [exact Hans|]. apply Hbig. reflexivity.
Defined.

Lemma shared_skill_listed_twice_as_technical_witness :
  "presentation" ∈ fst (get_all_skills (load_dataset overlap_csv))
  /\ "presentation" ∈ snd (get_all_skills (load_dataset overlap_csv))
  /\ occurrences "presentation" (all_skills overlap_csv) = 2.
Proof.
  assert ("presentation" ∈ fst (get_all_skills (load_dataset overlap_csv))) as Ht
    by (vm_compute; left).
  assert ("presentation" ∈ snd (get_all_skills (load_dataset overlap_csv))) as Hs
    by (vm_compute; right; left).
  split; [exact Ht|]. split; [exact Hs|].
  exact (proj1 (shared_skill_listed_twice_as_technical overlap_csv
                  "Presentation skills are required" 0.4 "presentation" Ht Hs)).
Defined.

(** The examples of the specification. *)
Example resolver_ex :
  Server.get_job_skills sample_csv literal_contains "data scientist"
  = Some (["machine learning"; "python"; "sql"], ["communication"],
          "machine learning python sql communication").
Proof. vm_compute. reflexivity. Qed.

Example scorer_ex :
  exists score,
    Server.analyze_jd sample_csv "Python is required for this mandatory role" 0.4
    = Ok ([("python", score)], [])
    /\ (score == 0.96)%Q.
Proof. eexists. split; vm_compute; reflexivity. Qed.

(** * Further properties of the two programs *)

(** ** Normal forms of skill names *)

Lemma lstrip_head s :
  Py.lstrip s = "" \/ exists c t, Py.lstrip s = String c t /\ Py.isspace c = false.
Proof.
  induction s as [|c s IH]; simpl; [by left|].
  destruct (Py.isspace c) eqn:E; [exact IH|]. right. eauto.
Qed.

Lemma rstrip_idemp s : Py.rstrip (Py.rstrip s) = Py.rstrip s.
Proof.
  induction s as [|c s IH]; simpl; [reflexivity|].
  destruct (Py.rstrip s) as [|d r] eqn:E.
  - destruct (Py.isspace c) eqn:Ec; simpl; [reflexivity|]. by rewrite Ec.
  - simpl. simpl in IH. by rewrite IH.
Qed.

Lemma rstrip_head c t :
  Py.isspace c = false -> exists t', Py.rstrip (String c t) = String c t'.
Proof.
  intros Hc. simpl. destruct (Py.rstrip t); [rewrite Hc|]; eauto.
Qed.

Lemma strip_idemp s : Py.strip (Py.strip s) = Py.strip s.
Proof.
  unfold Py.strip. destruct (lstrip_head s) as [E|(c & t & E & Hc)]; rewrite E.
  - reflexivity.
  - destruct (rstrip_head c t Hc) as [t' Ht]. rewrite Ht.
    simpl Py.lstrip. rewrite Hc. rewrite <- Ht. apply rstrip_idemp.
Qed.

Lemma strip_lower s : Py.strip (Py.lower s) = Py.lower (Py.strip s).
Proof. symmetry. apply lower_strip. Qed.

(** A cleaned token is in normal form: lower-casing and stripping leave
    it unchanged. *)
Lemma clean_token_normal token :
  Py.lower (Py.lower (Py.strip token)) = Py.lower (Py.strip token)
  /\ Py.strip (Py.lower (Py.strip token)) = Py.lower (Py.strip token).
Proof.
  split; [apply lower_idemp|]. by rewrite strip_lower, strip_idemp.
Qed.

Lemma column_tokens_elem col (df : list row) s :
  s ∈ column_tokens col df
  <-> exists r token, r ∈ df /\ token ∈ Py.split_on "," (col r)
                      /\ s = Py.lower (Py.strip token).
Proof.
  unfold column_tokens. rewrite list_elem_of_bind. split.
  - intros (r & Hs & Hr). apply list_elem_of_fmap in Hs as (token & -> & Ht). eauto.
  - intros (r & token & Hr & Ht & ->). exists r. split; [|done].
    apply list_elem_of_fmap. eauto.
Qed.

Lemma vocabulary_elem (df : list row) s :
  (s ∈ fst (get_all_skills df)
   <-> s <> "" /\ s ∈ column_tokens technical_skills df)
  /\ (s ∈ snd (get_all_skills df)
   <-> s <> "" /\ s ∈ column_tokens soft_skills df).
Proof.
  unfold get_all_skills, Py.set. cbn [fst snd].
  split; rewrite (proj2 (proj2 (sorted_spec _))), elem_of_difference,
    elem_of_list_to_set, elem_of_singleton; tauto.
Qed.

Lemma vocabulary_sorted (df : list row) :
  StronglySorted String.le (fst (get_all_skills df))
  /\ StronglySorted String.le (snd (get_all_skills df)).
Proof. unfold get_all_skills. cbn [fst snd]. split; apply sorted_spec. Qed.

(** X1. The vocabulary of [get_all_skills]: both lists are sorted and
    without duplicates; a name is in a list exactly when it is not empty
    and is the stripped, lower-cased form of a comma-separated token of
    that column in some row; every name is in normal form (unchanged by
    lower-casing and by stripping). *)
Theorem vocabulary_spec (df : list row) :
  let tech := fst (get_all_skills df) in
  let soft := snd (get_all_skills df) in
  StronglySorted String.le tech /\ NoDup tech
  /\ StronglySorted String.le soft /\ NoDup soft
  /\ (forall s, s ∈ tech
        <-> s <> "" /\ exists r token,
              r ∈ df /\ token ∈ Py.split_on "," (technical_skills r)
              /\ s = Py.lower (Py.strip token))
  /\ (forall s, s ∈ soft
        <-> s <> "" /\ exists r token,
              r ∈ df /\ token ∈ Py.split_on "," (soft_skills r)
              /\ s = Py.lower (Py.strip token))
  /\ (forall s, s ∈ tech ++ soft ->
        s <> "" /\ Py.lower s = s /\ Py.strip s = s).
Proof.
  intros tech soft.
  assert (forall s, s ∈ tech
        <-> s <> "" /\ exists r token,
              r ∈ df /\ token ∈ Py.split_on "," (technical_skills r)
              /\ s = Py.lower (Py.strip token)) as Ht.
  { intros s. unfold tech. rewrite (proj1 (vocabulary_elem df s)).
    by rewrite column_tokens_elem. }
  assert (forall s, s ∈ soft
        <-> s <> "" /\ exists r token,
              r ∈ df /\ token ∈ Py.split_on "," (soft_skills r)
              /\ s = Py.lower (Py.strip token)) as Hs.
  { intros s. unfold soft. rewrite (proj2 (vocabulary_elem df s)).
    by rewrite column_tokens_elem. }
  assert (forall s, s ∈ tech ++ soft ->
            s <> "" /\ exists token, s = Py.lower (Py.strip token)) as Hn.
  { intros s Hin. apply elem_of_app in Hin as [Hin|Hin];
      [apply Ht in Hin | apply Hs in Hin];
      destruct Hin as (Hne & r & token & _ & _ & ->); eauto. }
  split; [apply sorted_spec|]. split; [apply vocabulary_nodup|].
  split; [apply sorted_spec|]. split; [apply vocabulary_nodup|].
  split; [exact Ht|]. split; [exact Hs|].
  intros s Hin. destruct (Hn s Hin) as (Hne & token & ->).
  split; [exact Hne|]. apply clean_token_normal.
Qed.

(** X2. The vocabulary does not depend on the order of the rows of the
    table. *)
Theorem vocabulary_row_order (df1 df2 : list row) :
  df1 ≡ₚ df2 -> get_all_skills df1 = get_all_skills df2.
Proof.
  intros Hp. unfold get_all_skills, Py.set.
  assert (forall col : row -> string,
    (list_to_set (column_tokens col df1) : gset string)
    = list_to_set (column_tokens col df2)) as E.
  { intros col. apply list_to_set_perm_L. unfold column_tokens.
    by apply bind_Permutation. }
  by rewrite !E.
Qed.

Lemma vocabulary_row_order_witness :
  overlap_csv ≡ₚ reverse overlap_csv
  /\ get_all_skills overlap_csv = get_all_skills (reverse overlap_csv).
Proof.
  assert (overlap_csv ≡ₚ reverse overlap_csv) as Hp by apply perm_swap.
  split; [exact Hp|]. exact (vocabulary_row_order _ _ Hp).
Defined.

(** ** The resolver: order of the rows, vocabulary, the two copies *)

Lemma sorted_set_same (l1 l2 : list string) :
  (forall s, s ∈ l1 <-> s ∈ l2) -> Py.sorted (Py.set l1) = Py.sorted (Py.set l2).
Proof.
  intros H. unfold Py.set. f_equal. apply set_eq. intros s.
  by rewrite !elem_of_list_to_set.
Qed.

Lemma server_skills_of_rows_perm (f1 f2 : list row) :
  f1 ≡ₚ f2 -> Server.skills_of_rows f1 = Server.skills_of_rows f2.
Proof.
  intros Hp.
  assert (forall col : row -> string,
    Server.clean_skills (r ← f1; Py.split_on "," (col r))
    = Server.clean_skills (r ← f2; Py.split_on "," (col r))) as E.
  { intros col. unfold Server.clean_skills. apply sorted_set_same. intros s.
    by rewrite Hp. }
  destruct f1 as [|r1 f1].
  - apply Permutation_nil_l in Hp. by subst.
  - destruct f2 as [|r2 f2]; [by apply Permutation_nil_r in Hp|].
    cbn [Server.skills_of_rows]. by rewrite !E.
Qed.

Lemma app_skills_of_rows_perm (f1 f2 : list row) :
  f1 ≡ₚ f2 -> App.skills_of_rows f1 = App.skills_of_rows f2.
Proof.
  intros Hp.
  assert (forall col : row -> string,
    App.clean_skills (r ← f1; Py.split_on "," (col r))
    = App.clean_skills (r ← f2; Py.split_on "," (col r))) as E.
  { intros col. unfold App.clean_skills. apply sorted_set_same. intros s.
    by rewrite Hp. }
  destruct f1 as [|r1 f1].
  - apply Permutation_nil_l in Hp. by subst.
  - destruct f2 as [|r2 f2]; [by apply Permutation_nil_r in Hp|].
    cbn [App.skills_of_rows]. by rewrite !E.
Qed.

(** X3. In both programs the resolver's result (the two lists and the
    reference text) does not depend on the order of the rows of the
    table. *)
Theorem resolver_row_order (csv1 csv2 : list row)
    (str_contains : string -> option (string -> bool)) (job_role : string) :
  csv1 ≡ₚ csv2 ->
  Server.get_job_skills csv1 str_contains job_role
  = Server.get_job_skills csv2 str_contains job_role
  /\ App.get_job_skills csv1 str_contains job_role
     = App.get_job_skills csv2 str_contains job_role.
Proof.
  intros Hp. unfold Server.get_job_skills, App.get_job_skills, Server.df, App.df.
  destruct (str_contains (Py.lower job_role)) as [title_matches|]; [|done].
  cbn [mbind option_bind].
  assert (filter (fun r => title_matches (job_title r) = true) (load_dataset csv1)
          ≡ₚ filter (fun r => title_matches (job_title r) = true) (load_dataset csv2))
    as Hf by (unfold load_dataset; by rewrite Hp).
  split; f_equal;
    [by apply server_skills_of_rows_perm | by apply app_skills_of_rows_perm].
Qed.

Lemma resolver_row_order_witness :
  overlap_csv ≡ₚ reverse overlap_csv
  /\ Server.get_job_skills overlap_csv literal_contains "a"
     = Server.get_job_skills (reverse overlap_csv) literal_contains "a".
Proof.
  assert (overlap_csv ≡ₚ reverse overlap_csv) as Hp by apply perm_swap.
  split; [exact Hp|].
  exact (proj1 (resolver_row_order _ _ literal_contains "a" Hp)).
Defined.

(** X4. Every skill the service's resolver returns for a role is a
    skill of the vocabulary, of the same category. *)
Theorem resolver_skills_in_vocabulary (jobs_csv : list row)
    (str_contains : string -> option (string -> bool)) (job_role : string)
    (tech soft : list string) (job_text : string) :
  Server.get_job_skills jobs_csv str_contains job_role = Some (tech, soft, job_text) ->
  tech ⊆ fst (get_all_skills (load_dataset jobs_csv))
  /\ soft ⊆ snd (get_all_skills (load_dataset jobs_csv)).
Proof.
  unfold Server.get_job_skills, Server.df.
  destruct (str_contains (Py.lower job_role)) as [title_matches|]; [|done].
  cbn [mbind option_bind]. intros [= Hres].
  set (filtered := filter (fun r => title_matches (job_title r) = true)
                          (load_dataset jobs_csv)) in *.
  destruct (decide (filtered = [])) as [E|Hne].
  - rewrite E in Hres. injection Hres as <- <- <-.
    split; intros s Hs; by apply elem_of_nil in Hs.
  - destruct (server_skills_of_rows_spec filtered Hne)
      as (t & s & Heq & _ & _ & _ & _ & _ & _ & Ht & Hs).
    rewrite Heq in Hres. injection Hres as <- <- <-.
    split; intros x Hx.
    + apply Ht in Hx as (r & token & Hr & Htok & Hb & ->).
      apply vocabulary_elem. split; [by apply lower_not_empty|].
      apply column_tokens_elem. exists r, token.
      apply list_elem_of_filter in Hr as [_ Hr]. done.
    + apply Hs in Hx as (r & token & Hr & Htok & Hb & ->).
      apply vocabulary_elem. split; [by apply lower_not_empty|].
      apply column_tokens_elem. exists r, token.
      apply list_elem_of_filter in Hr as [_ Hr]. done.
Qed.

Lemma resolver_skills_in_vocabulary_witness :
  Server.get_job_skills sample_csv literal_contains "data"
  = Some (["machine learning"; "python"; "sql"], ["communication"],
          "machine learning python sql communication")
  /\ ["machine learning"; "python"; "sql"]
     ⊆ fst (get_all_skills (load_dataset sample_csv)).
Proof.
  assert (Server.get_job_skills sample_csv literal_contains "data"
          = Some (["machine learning"; "python"; "sql"], ["communication"],
                  "machine learning python sql communication")) as H
    by (vm_compute; reflexivity).
  split; [exact H|].
  exact (proj1 (resolver_skills_in_vocabulary _ _ _ _ _ _ H)).
Defined.

Lemma filter_all {A} (P : A -> Prop) `{forall x, Decision (P x)} (l : list A) :
  (forall x, x ∈ l -> P x) -> filter P l = l.
Proof.
  induction l as [|a l IH]; intros Hl; [reflexivity|].
  rewrite filter_cons, decide_True by (apply Hl; by left).
  f_equal. apply IH. intros x Hx. apply Hl. by right.
Qed.

(** X5. The two copies of the resolver differ, after the rows of the
    role are selected, only in what they do with blank tokens: from the
    same selected rows, none of which has a blank token (no empty field,
    no doubled or trailing comma), the screener's copy and the service's
    copy compute the same two lists and the same reference text. *)
Theorem resolver_copies_agree (filtered : list row) :
  (forall r token,
     r ∈ filtered ->
     token ∈ Py.split_on "," (technical_skills r) ++ Py.split_on "," (soft_skills r) ->
     Py.strip token <> "") ->
  App.skills_of_rows filtered = Server.skills_of_rows filtered.
Proof.
  intros Hblank.
  assert (forall col,
            (col = technical_skills \/ col = soft_skills) ->
            App.clean_skills (r ← filtered; Py.split_on "," (col r))
            = Server.clean_skills (r ← filtered; Py.split_on "," (col r))) as E.
  { intros col Hcol. unfold App.clean_skills, Server.clean_skills.
    rewrite filter_all; [reflexivity|].
    intros token Ht. apply list_elem_of_bind in Ht as (r & Ht & Hr).
    apply (Hblank r token Hr). apply elem_of_app.
    destruct Hcol as [-> | ->]; [by left | by right]. }
  destruct filtered; [reflexivity|].
  cbn [App.skills_of_rows Server.skills_of_rows]. rewrite !E by auto. reflexivity.
Qed.

Lemma resolver_copies_agree_witness :
  (forall r token,
     r ∈ load_dataset overlap_csv ->
     token ∈ Py.split_on "," (technical_skills r) ++ Py.split_on "," (soft_skills r) ->
     Py.strip token <> "")
  /\ App.skills_of_rows (load_dataset overlap_csv)
     = Server.skills_of_rows (load_dataset overlap_csv).
Proof.
  assert (forall r token,
     r ∈ load_dataset overlap_csv ->
     token ∈ Py.split_on "," (technical_skills r) ++ Py.split_on "," (soft_skills r) ->
     Py.strip token <> "") as Hblank.
  { intros r token Hr Ht. vm_compute in Hr.
    repeat (apply elem_of_cons in Hr as [->|Hr];
            [vm_compute in Ht;
             repeat (apply elem_of_cons in Ht as [->|Ht]; [discriminate|]);
             by apply elem_of_nil in Ht|]).
    by apply elem_of_nil in Hr. }
  split; [exact Hblank|].
  exact (resolver_copies_agree (load_dataset overlap_csv) Hblank).
Defined.

(** ** Screening a resume *)

Lemma join_empty (l : list string) : Py.join " " l = "" -> l = [] \/ l = [""].
Proof.
  destruct l as [|x [|y l]]; cbn [Py.join]; [by left | intros ->; by right |].
  intros H. apply (f_equal String.length) in H.
  rewrite !append_length in H. simpl in H. lia.
Qed.

Lemma join_no_blank (l : list string) :
  ~ ("" ∈ l) -> Py.join " " l = "" -> l = [].
Proof.
  intros Hb H. apply join_empty in H as [->| ->]; [reflexivity|].
  destruct Hb. by left.
Qed.

(** The reference text of the service's resolver is empty only when
    both lists are. *)
Lemma server_job_text_empty (filtered : list row) tech soft :
  Server.skills_of_rows filtered = (tech, soft, "") -> tech = [] /\ soft = [].
Proof.
  intros H. destruct (decide (filtered = [])) as [->|Hne].
  - by injection H as <- <-.
  - destruct (server_skills_of_rows_spec filtered Hne)
      as (t & s & Heq & _ & _ & _ & _ & Hbt & Hbs & _).
    rewrite Heq in H. injection H as <- <- Hj.
    apply join_no_blank in Hj.
    + by apply app_eq_nil in Hj.
    + intros Hin. apply elem_of_app in Hin as [?|?]; tauto.
Qed.

(** X6. The service answers 404 "Job role not found in dataset"
    exactly when pandas accepts the role name and every token of every
    matching row is blank; so a role whose rows match but carry no skill
    is reported as not found, like a role that matches no row. *)
Theorem not_found_iff_no_skill (jobs_csv : list row)
    (str_contains : string -> option (string -> bool))
    (match_score : string -> string -> option Q) (resume_text job_role : string) :
  Server.screen jobs_csv str_contains match_score resume_text job_role
  = NotFound "Job role not found in dataset"
  <-> exists title_matches,
        str_contains (Py.lower job_role) = Some title_matches
        /\ forall r token,
             r ∈ jobs_csv -> title_matches (Py.lower (job_title r)) = true ->
             token ∈ Py.split_on "," (technical_skills r)
                     ++ Py.split_on "," (soft_skills r) ->
             Py.strip token = "".
Proof.
  unfold Server.screen, Server.get_job_skills, Server.df.
  destruct (str_contains (Py.lower job_role)) as [title_matches|];
    [|split; [discriminate | intros (? & ? & _); discriminate]].
  cbn [mbind option_bind].
  set (filtered := filter (fun r => title_matches (job_title r) = true)
                          (load_dataset jobs_csv)).
  assert (forall r0, r0 ∈ filtered
            <-> exists r, r ∈ jobs_csv
                          /\ title_matches (Py.lower (job_title r)) = true
                          /\ r0 = Row (Py.lower (job_title r)) (technical_skills r)
                                      (soft_skills r)) as Hrows.
  { intros r0. unfold filtered, load_dataset.
    rewrite list_elem_of_filter, list_elem_of_fmap. split.
    - intros (Hm & r & -> & Hr). eauto.
    - intros (r & Hr & Hm & ->). eauto. }
  destruct (Server.skills_of_rows filtered) as [[tech soft] job_text] eqn:Hres.
  split.
  - intros Hnf. exists title_matches. split; [reflexivity|].
    destruct (decide (job_text = "")) as [->|]; [|by destruct (match_score _ _)].
    apply server_job_text_empty in Hres as Hnil. destruct Hnil as [-> ->].
    intros r token Hr Hm Htok.
    destruct (decide (Py.strip token = "")) as [|Hb]; [done|exfalso].
    assert (Row (Py.lower (job_title r)) (technical_skills r) (soft_skills r)
            ∈ filtered) as Hin by (apply Hrows; eauto).
    destruct (server_skills_of_rows_spec filtered) as
      (t & s & Heq & _ & _ & _ & _ & _ & _ & Ht & Hs).
    { intros E. rewrite E in Hin. by apply elem_of_nil in Hin. }
    rewrite Hres in Heq. injection Heq as <- <- _.
    apply elem_of_app in Htok as [Htok|Htok].
    + assert (Py.lower (Py.strip token) ∈ @nil string) as Habs
        by (apply Ht; eauto 6).
      by apply elem_of_nil in Habs.
    + assert (Py.lower (Py.strip token) ∈ @nil string) as Habs
        by (apply Hs; eauto 6).
      by apply elem_of_nil in Habs.
  - intros (tm & [= <-] & Hblank).
    assert (tech = [] /\ soft = []) as [-> ->].
    { destruct (decide (filtered = [])) as [E|Hne].
      - rewrite E in Hres. by injection Hres as <- <- _.
      - destruct (server_skills_of_rows_spec filtered Hne) as
          (t & s & Heq & _ & _ & _ & _ & _ & _ & Ht & Hs).
        rewrite Hres in Heq. injection Heq as <- <- _.
        split.
        + destruct tech as [|x tech]; [reflexivity|exfalso].
          destruct (proj1 (Ht x)) as (r0 & token & Hr0 & Htok & Hb & _); [by left|].
          apply Hrows in Hr0 as (r & Hr & Hm & ->). cbn in Htok.
          apply Hb, (Hblank r token Hr Hm). apply elem_of_app. by left.
        + destruct soft as [|x soft]; [reflexivity|exfalso].
          destruct (proj1 (Hs x)) as (r0 & token & Hr0 & Htok & Hb & _); [by left|].
          apply Hrows in Hr0 as (r & Hr & Hm & ->). cbn in Htok.
          apply Hb, (Hblank r token Hr Hm). apply elem_of_app. by right. }
    assert (job_text = "") as ->.
    { destruct filtered; cbn in Hres; [by injection Hres|].
      injection Hres as Ht Hs <-. by rewrite Ht, Hs. }
    reflexivity.
Qed.

(** X7. In a successful screening the found and the missing skills
    split the role's skills: a role skill is found when its lower-casing
    occurs in the resume text and missing otherwise; the score is the
    provider's; the recommendation is "Resume matches the role well."
    exactly when nothing is missing. *)
Theorem screen_found_and_missing (jobs_csv : list row)
    (str_contains : string -> option (string -> bool))
    (match_score : string -> string -> option Q) (resume_text job_role : string)
    (result : match_result) :
  Server.screen jobs_csv str_contains match_score resume_text job_role = Ok result ->
  exists tech soft job_text,
    Server.get_job_skills jobs_csv str_contains job_role = Some (tech, soft, job_text)
    /\ match_score resume_text job_text = Some (matchScore result)
    /\ (forall s, s ∈ techSkillsFound result
          <-> s ∈ tech /\ Py.contains (Py.lower s) resume_text = true)
    /\ (forall s, s ∈ missingTechSkills result
          <-> s ∈ tech /\ Py.contains (Py.lower s) resume_text = false)
    /\ (forall s, s ∈ softSkillsFound result
          <-> s ∈ soft /\ Py.contains (Py.lower s) resume_text = true)
    /\ (forall s, s ∈ missingSoftSkills result
          <-> s ∈ soft /\ Py.contains (Py.lower s) resume_text = false)
    /\ (recommendation result = "Resume matches the role well."
        <-> missingTechSkills result = [] /\ missingSoftSkills result = []).
Proof.
  unfold Server.screen.
  destruct (Server.get_job_skills jobs_csv str_contains job_role)
    as [[[tech soft] job_text]|]; [|discriminate].
  destruct (decide (job_text = "")); [discriminate|].
  destruct (match_score resume_text job_text) as [score|] eqn:Hms; [|discriminate].
  intros [= <-]. exists tech, soft, job_text. cbn.
  assert (forall l s,
    s ∈ Py.sorted (Py.set l ∖ Py.set (extract_skills_from_text resume_text l))
    <-> s ∈ l /\ Py.contains (Py.lower s) resume_text = false) as Hmiss.
  { intros l s. unfold Py.set at 1 2.
    rewrite (proj2 (proj2 (sorted_spec _))), elem_of_difference,
      !elem_of_list_to_set,
      (proj2 (proj2 (extract_skills_from_text_spec resume_text l))).
    destruct (Py.contains (Py.lower s) resume_text).
    - split; [intros [Ha Hn]; destruct Hn; by split | intros [_ ?]; discriminate].
    - split; [intros [Ha _]; by split |].
      intros [Ha _]. split; [done | intros [_ ?]; discriminate]. }
  split; [reflexivity|]. split; [exact Hms|].
  split; [apply extract_skills_from_text_spec|]. split; [apply Hmiss|].
  split; [apply extract_skills_from_text_spec|]. split; [apply Hmiss|].
  destruct (Py.sorted (Py.set tech ∖ _)); destruct (Py.sorted (Py.set soft ∖ _));
    split; try done; intros [? ?]; done.
Qed.

Lemma screen_found_and_missing_witness :
  exists result,
    Server.screen sample_csv literal_contains (fun _ _ => Some 50%Q)
      "i have experience in python and sql" "data scientist" = Ok result
    /\ forall s, s ∈ missingTechSkills result
         <-> s ∈ ["machine learning"; "python"; "sql"]
             /\ Py.contains (Py.lower s) "i have experience in python and sql" = false.
Proof.
  eexists. split; [vm_compute; reflexivity|].
  assert (Server.screen sample_csv literal_contains (fun _ _ => Some 50%Q)
      "i have experience in python and sql" "data scientist"
    = Ok (MatchResult 50 ["python"; "sql"] [] ["machine learning"] ["communication"]
            "Upskill using Coursera, Udemy, or LinkedIn Learning.")) as H
    by (vm_compute; reflexivity).
  destruct (screen_found_and_missing _ _ _ _ _ _ H)
    as (tech & soft & job_text & Hget & _ & _ & Hm & _).
  vm_compute in Hget. injection Hget as <- <- <-. exact Hm.
Defined.

Lemma foldl_pages_skip (pages : list (option string)) (acc : string) :
  foldl (fun text page_text =>
           match page_text with
           | Some t => if decide (t = "") then text
                       else String.append text (String.append t " ")
           | None => text
           end) acc
        (filter (fun p => p <> None /\ p <> Some "") pages)
  = foldl (fun text page_text =>
             match page_text with
             | Some t => if decide (t = "") then text
                         else String.append text (String.append t " ")
             | None => text
             end) acc pages.
Proof.
  revert acc. induction pages as [|p pages IH]; intros acc; [reflexivity|].
  rewrite filter_cons. destruct p as [t|].
  - destruct (decide (t = "")) as [->|Hne].
    + rewrite decide_False by (intros [_ ?]; done). cbn [foldl].
      rewrite decide_True by done. apply IH.
    + rewrite decide_True by (split; congruence). cbn [foldl].
      rewrite decide_False by done. apply IH.
  - rewrite decide_False by (intros [? _]; done). cbn [foldl]. apply IH.
Qed.

(** X9. The text extracted from a PDF is lower-cased and has no
    leading or trailing whitespace, and pages without text contribute
    nothing. *)
Theorem extracted_text_normal (pages : list (option string)) :
  let text := Server.extract_text_from_pdf pages in
  Py.lower text = text /\ Py.strip text = text
  /\ Server.extract_text_from_pdf
       (filter (fun p => p <> None /\ p <> Some "") pages) = text.
Proof.
  intros text. unfold text, Server.extract_text_from_pdf.
  split; [by rewrite lower_strip, lower_idemp|].
  split; [apply strip_idemp|]. by rewrite foldl_pages_skip.
Qed.

(** X10. The matcher's result depends only on the set of candidate
    skills, not on their order or repetition, and matching the result
    again against the same text changes nothing. *)
Theorem matcher_set_of_skills (text : string) (l1 l2 : list string) :
  (forall s, s ∈ l1 <-> s ∈ l2) ->
  extract_skills_from_text text l1 = extract_skills_from_text text l2
  /\ extract_skills_from_text text (extract_skills_from_text text l1)
     = extract_skills_from_text text l1.
Proof.
  intros H. unfold extract_skills_from_text at 1 2 3 5. split.
  - apply sorted_set_same. intros s. rewrite !list_elem_of_filter. by rewrite H.
  - apply sorted_set_same. intros s. rewrite !list_elem_of_filter.
    rewrite (proj2 (proj2 (extract_skills_from_text_spec text l1))). tauto.
Qed.

Lemma matcher_set_of_skills_witness :
  (forall s, s ∈ ["sql"; "python"; "sql"] <-> s ∈ ["python"; "sql"])
  /\ extract_skills_from_text "python and sql" ["sql"; "python"; "sql"]
     = extract_skills_from_text "python and sql" ["python"; "sql"].
Proof.
  assert (forall s, s ∈ ["sql"; "python"; "sql"] <-> s ∈ ["python"; "sql"]) as H.
  { intros s. rewrite !elem_of_cons, !elem_of_nil. tauto. }
  split; [exact H|]. exact (proj1 (matcher_set_of_skills "python and sql" _ _ H)).
Defined.

(** ** The ranked lists *)

Lemma insert_desc_sorted x l :
  StronglySorted by_score_desc l -> StronglySorted by_score_desc (insert_desc x l).
Proof.
  induction 1 as [|y l Hs IH Hy]; cbn [insert_desc]; [repeat constructor|].
  destruct (Qlt_le_dec (snd x) (snd y)) as [Hlt|Hle].
  - constructor; [exact IH|]. rewrite insert_desc_perm. constructor; [|exact Hy].
    unfold by_score_desc. lra.
  - constructor; [by constructor|]. constructor; [exact Hle|].
    eapply Forall_impl; [exact Hy|]. unfold by_score_desc. intros z Hz. lra.
Qed.

Lemma sort_desc_sorted l : StronglySorted by_score_desc (sort_desc l).
Proof.
  induction l as [|x l IH]; cbn; [constructor | by apply insert_desc_sorted].
Qed.

(** What either entry point returns is the sorted selection of the
    third loop, or the two empty lists of the screener's guard. *)
Lemma entry_points_rank jobs_csv job_description threshold found_tech found_soft :
  Server.analyze_jd jobs_csv job_description threshold = Ok (found_tech, found_soft)
  \/ App.extract_mandatory_skills jobs_csv job_description threshold
     = Some (found_tech, found_soft) ->
  (found_tech = [] /\ found_soft = [])
  \/ exists keywords skill_len (scores : gmap string Q),
       Forall (fun kv => (0 <= snd kv)%Q) keywords
       /\ final_scores keywords skill_len (Py.lower job_description)
            (all_skills jobs_csv) = Some scores
       /\ found_tech
          = sort_desc (filter (fun it => fst it ∈ fst (get_all_skills (load_dataset jobs_csv)))
                         (omap (passes threshold scores) (all_skills jobs_csv)))
       /\ found_soft
          = sort_desc (filter (fun it => fst it ∉ fst (get_all_skills (load_dataset jobs_csv)))
                         (omap (passes threshold scores) (all_skills jobs_csv))).
Proof.
  intros [H|H].
  - unfold Server.analyze_jd in H.
    destruct (decide (job_description = "")); [discriminate|].
    unfold Server.df in H.
    destruct (rank_skills_spec Server.keywords Py.len (Py.lower job_description)
                threshold (fst (get_all_skills (load_dataset jobs_csv)))
                (snd (get_all_skills (load_dataset jobs_csv))))
      as (scores & Hrun & Hrank).
    destruct (get_all_skills (load_dataset jobs_csv)) as [all_tech all_soft] eqn:Hv.
    cbn [fst snd] in *. rewrite Hrank in H. injection H as <- <-.
    right. exists Server.keywords, Py.len, scores.
    split; [apply server_keywords_nonneg|].
    unfold all_skills. rewrite Hv. cbn [fst snd]. done.
  - unfold App.extract_mandatory_skills in H.
    destruct (decide (job_description = "")); [injection H as <- <-; by left|].
    destruct (Py.len (Py.strip job_description) <? 10)%Z;
      [injection H as <- <-; by left|].
    unfold App.df in H.
    destruct (rank_skills_spec App.importance_keywords
                (fun skill => Py.len (Py.lower skill)) (Py.lower job_description)
                threshold (fst (get_all_skills (load_dataset jobs_csv)))
                (snd (get_all_skills (load_dataset jobs_csv))))
      as (scores & Hrun & Hrank).
    destruct (get_all_skills (load_dataset jobs_csv)) as [all_tech all_soft] eqn:Hv.
    cbn [fst snd] in *. rewrite Hrank in H. injection H as <- <-.
    right. exists App.importance_keywords, (fun skill => Py.len (Py.lower skill)), scores.
    split; [apply app_keywords_nonneg|].
    unfold all_skills. rewrite Hv. cbn [fst snd]. done.
Qed.

Lemma ranked_lists_sorted jobs_csv job_description threshold found_tech found_soft :
  Server.analyze_jd jobs_csv job_description threshold = Ok (found_tech, found_soft)
  \/ App.extract_mandatory_skills jobs_csv job_description threshold
     = Some (found_tech, found_soft) ->
  StronglySorted by_score_desc found_tech
  /\ StronglySorted by_score_desc found_soft.
Proof.
  intros H. apply entry_points_rank in H
    as [[-> ->]|(kw & sl & scores & _ & _ & -> & ->)].
  - split; constructor.
  - split; apply sort_desc_sorted.
Qed.

(** X11. Whatever either scorer returns, each of the two lists is in
    descending order of score. *)
Theorem ranked_lists_descending (jobs_csv : list row) (job_description : string)
    (threshold : Q) (found_tech found_soft : list item) :
  Server.analyze_jd jobs_csv job_description threshold = Ok (found_tech, found_soft)
  \/ App.extract_mandatory_skills jobs_csv job_description threshold
     = Some (found_tech, found_soft) ->
  StronglySorted by_score_desc found_tech
  /\ StronglySorted by_score_desc found_soft.
Proof.
  intros H. apply entry_points_rank in H
    as [[-> ->]|(kw & sl & scores & _ & _ & -> & ->)].
  - split; constructor.
  - split; apply sort_desc_sorted.
Qed.

Lemma passes_inv threshold (scores : gmap string Q) k name q :
  passes threshold scores k = Some (name, q) ->
  name = k /\ scores !! k = Some q /\ (threshold * 0.5 <= q)%Q.
Proof.
  unfold passes. destruct (scores !! k) as [q0|]; [|discriminate]. cbn.
  destruct (Qle_bool (threshold * 0.5) q0) eqn:E; [|discriminate].
  intros [= <- <-]. apply Qle_bool_iff in E. done.
Qed.

(** X12. Whatever either scorer returns, every entry of the technical
    list names a technical skill of the vocabulary, every entry of the
    soft list names a soft skill that is not also a technical one, and
    every score lies in [0, 1]. *)
Theorem ranked_lists_categories (jobs_csv : list row) (job_description : string)
    (threshold : Q) (found_tech found_soft : list item) :
  Server.analyze_jd jobs_csv job_description threshold = Ok (found_tech, found_soft)
  \/ App.extract_mandatory_skills jobs_csv job_description threshold
     = Some (found_tech, found_soft) ->
  (forall skill score, (skill, score) ∈ found_tech ->
     skill ∈ fst (get_all_skills (load_dataset jobs_csv))
     /\ (0 <= score <= 1)%Q)
  /\ (forall skill score, (skill, score) ∈ found_soft ->
     skill ∈ snd (get_all_skills (load_dataset jobs_csv))
     /\ ~ (skill ∈ fst (get_all_skills (load_dataset jobs_csv)))
     /\ (0 <= score <= 1)%Q).
Proof.
  intros H. apply entry_points_rank in H
    as [[-> ->]|(kw & sl & scores & Hkw & Hrun & -> & ->)].
  - split; intros skill score Hin; by apply elem_of_nil in Hin.
  - split; intros skill score Hin; rewrite sort_desc_perm in Hin;
      apply list_elem_of_filter in Hin as [Hcat Hin]; cbn [fst] in Hcat;
      apply list_elem_of_omap in Hin as (k & Hk & Hp);
      apply passes_inv in Hp as (-> & Hq & _);
      pose proof (final_score_unit _ _ _ _ _ _ _ Hkw Hrun Hq) as Hunit.
    + done.
    + split; [|done]. unfold all_skills in Hk. apply elem_of_app in Hk as [?|?]; done.
Qed.

Lemma ranked_lists_descending_witness :
  exists found_tech found_soft,
    (Server.analyze_jd overlap_csv "SQL and presentation are required" 0.4
     = Ok (found_tech, found_soft)
     \/ App.extract_mandatory_skills overlap_csv "SQL and presentation are required" 0.4
        = Some (found_tech, found_soft))
    /\ StronglySorted by_score_desc found_tech.
Proof.
  destruct (Server.analyze_jd overlap_csv "SQL and presentation are required" 0.4)
    as [[ft fs]| | |] eqn:H; try (vm_compute in H; discriminate).
  exists ft, fs. split; [by left|].
  exact (proj1 (ranked_lists_descending _ _ _ _ _ (or_introl H))).
Defined.

Lemma ranked_lists_categories_witness :
  exists found_tech found_soft,
    (Server.analyze_jd overlap_csv "SQL and communication are required" 0.4
     = Ok (found_tech, found_soft)
     \/ App.extract_mandatory_skills overlap_csv "SQL and communication are required" 0.4
        = Some (found_tech, found_soft))
    /\ forall skill score, (skill, score) ∈ found_soft ->
         skill ∈ snd (get_all_skills (load_dataset overlap_csv))
         /\ ~ (skill ∈ fst (get_all_skills (load_dataset overlap_csv)))
         /\ (0 <= score <= 1)%Q.
Proof.
  destruct (Server.analyze_jd overlap_csv "SQL and communication are required" 0.4)
    as [[ft fs]| | |] eqn:H; try (vm_compute in H; discriminate).
  exists ft, fs. split; [by left|].
  exact (proj2 (ranked_lists_categories _ _ _ _ _ (or_introl H))).
Defined.

(** ** Boosts *)

(** A skill that does not occur in the text keeps its score in the
    second loop. *)
Lemma boost_value_absent keywords skill_len text skill q :
  Py.contains (Py.lower skill) text = false ->
  boost_value keywords skill_len text skill q = q.
Proof. intros H. unfold boost_value. by rewrite H. Qed.

Lemma iter_id {A} (f : A -> A) n x : (forall y, f y = y) -> Nat.iter n f x = x.
Proof.
  intros Hf. induction n as [|n IH]; [done|]. by rewrite Nat.iter_succ, Hf.
Qed.

(** X15. A vocabulary skill that does not occur in the description is
    never boosted, whatever the keyword table: its final score is its
    base score, [0.05 * wordMatches] capped at 1. *)
Theorem absent_skill_never_boosted (keywords : list (string * Q))
    (skill_len : string -> Z) (job_description : string)
    (vocabulary : list string) (skill : string) :
  skill ∈ vocabulary ->
  Py.contains (Py.lower skill) (Py.lower job_description) = false ->
  exists scores : gmap string Q,
    final_scores keywords skill_len (Py.lower job_description) vocabulary
    = Some scores
    /\ scores !! skill = Some (base_score (Py.lower job_description) skill)
    /\ (base_score (Py.lower job_description) skill
        == Qmin (0.05 * inject_Z (Z.of_nat
                   (word_matches (Py.lower job_description) skill))) 1)%Q.
Proof.
  intros Hin Habs.
  destruct (final_scores_spec keywords skill_len (Py.lower job_description) vocabulary)
    as (scores & Hrun & Hl).
  exists scores. split; [exact Hrun|]. split.
  - rewrite Hl, decide_True by done. f_equal. apply iter_id.
    intros q. by apply boost_value_absent.
  - unfold base_score. rewrite min1_Qmin. unfold raw_score.
    assert (exact_count (Py.lower job_description) skill = 0%nat) as ->.
    { unfold exact_count. destruct (Py.lower skill) as [|c s] eqn:E.
      - cbn in Habs. destruct (Py.lower job_description); discriminate.
      - destruct (Py.count (String c s) (Py.lower job_description)) eqn:Ec; [done|].
        assert (Py.contains (String c s) (Py.lower job_description) = true) as Hc
          by (apply count_pos; [discriminate | lia]).
        congruence. }
    cbn [Nat.ltb Nat.leb]. apply Q.min_compat; [ring | reflexivity].
Qed.

Lemma absent_skill_never_boosted_witness :
  "sql" ∈ all_skills sample_csv
  /\ Py.contains (Py.lower "sql") (Py.lower "Python is required") = false
  /\ exists scores : gmap string Q,
       final_scores App.importance_keywords (fun skill => Py.len (Py.lower skill))
         (Py.lower "Python is required") (all_skills sample_csv) = Some scores
       /\ scores !! "sql" = Some (base_score (Py.lower "Python is required") "sql").
Proof.
  assert ("sql" ∈ all_skills sample_csv) as Hin
    by (vm_compute; right; right; left).
  split; [exact Hin|]. split; [reflexivity|].
  destruct (absent_skill_never_boosted App.importance_keywords
              (fun skill => Py.len (Py.lower skill)) "Python is required"
              (all_skills sample_csv) "sql" Hin eq_refl)
    as (scores & Hrun & Hq & _).
  exists scores. split; [exact Hrun | exact Hq].
Defined.

Lemma occurring_exact_count text skill :
  Py.contains (Py.lower skill) text = true <-> (0 < exact_count text skill)%nat.
Proof.
  unfold exact_count. destruct (Py.lower skill) as [|c s] eqn:E.
  - cbn [Py.count]. split; [lia|]. intros _. by destruct text.
  - symmetry. apply count_pos. discriminate.
Qed.

Lemma occurring_base_score text skill :
  Py.contains (Py.lower skill) text = true ->
  (0.7 < base_score text skill <= 1)%Q.
Proof.
  intros Hc. apply occurring_exact_count in Hc.
  split; [|apply base_score_unit].
  unfold base_score, raw_score.
  destruct (Nat.ltb_spec 0 (exact_count text skill)) as [_|]; [|lia].
  assert (1 <= inject_Z (Z.of_nat (exact_count text skill)))%Q as Hn.
  { change 1%Q with (inject_Z 1). rewrite <- Zle_Qle. lia. }
  remember (inject_Z (Z.of_nat (exact_count text skill))) as n eqn:En. clear En.
  unfold Py.min1. destruct (Qle_bool _ 1); lra.
Qed.

Lemma absent_single_word_score text skill :
  Py.split (Py.lower skill) = [Py.lower skill] ->
  Py.contains (Py.lower skill) text = false ->
  (base_score text skill == 0)%Q.
Proof.
  intros Hw Habs.
  assert (exact_count text skill = 0%nat) as He.
  { destruct (exact_count text skill) eqn:E; [done|].
    assert (Py.contains (Py.lower skill) text = true)
      by (apply occurring_exact_count; lia). congruence. }
  unfold base_score, raw_score, word_matches. rewrite He, Hw. cbn [Nat.ltb Nat.leb].
  cbn [fmap list_fmap sum_list sum_list_with].
  change (Py.count (Py.lower skill) text) with (exact_count text skill).
  rewrite He. reflexivity.
Qed.

Lemma boost_value_raises keywords skill_len text skill q :
  Forall (fun kv => (1 <= snd kv)%Q) keywords ->
  (0 <= q <= 1)%Q ->
  (q <= boost_value keywords skill_len text skill q <= 1)%Q.
Proof.
  intros Hk Hq. unfold boost_value.
  destruct (Py.contains _ _); [|lra].
  destruct (first_boost _ _) as [b|] eqn:E; [|lra].
  apply first_boost_in in E as (k & Hin & _).
  rewrite Forall_forall in Hk. specialize (Hk _ Hin). cbn in Hk.
  unfold Py.min1. destruct (Qle_bool (q * b) 1) eqn:Hle.
  - apply Qle_bool_iff in Hle. nra.
  - lra.
Qed.

Lemma server_keywords_raise : Forall (fun kv => (1 <= snd kv)%Q) Server.keywords.
Proof. repeat constructor; cbn; lra. Qed.

Lemma iter_raises (f : Q -> Q) (lo : Q) n q :
  (forall x, (lo <= x <= 1)%Q -> (x <= f x <= 1)%Q) ->
  (lo <= q <= 1)%Q -> (q <= Nat.iter n f q <= 1)%Q.
Proof.
  intros Hf Hq. induction n as [|n IH]; [cbn; lra|].
  rewrite Nat.iter_succ.
  assert (lo <= Nat.iter n f q <= 1)%Q as Hr by lra.
  specialize (Hf _ Hr). lra.
Qed.

(** X16. The service's keyword factors are all above 1: the final
    score of a vocabulary skill is never below its base score (and never
    above 1). *)
Theorem service_boost_never_lowers (jobs_csv : list row) (job_description : string)
    (skill : string) :
  skill ∈ all_skills jobs_csv ->
  exists (scores : gmap string Q) score,
    final_scores Server.keywords Py.len (Py.lower job_description)
      (all_skills jobs_csv) = Some scores
    /\ scores !! skill = Some score
    /\ (base_score (Py.lower job_description) skill <= score <= 1)%Q.
Proof.
  intros Hin.
  destruct (final_scores_spec Server.keywords Py.len (Py.lower job_description)
              (all_skills jobs_csv)) as (scores & Hrun & Hl).
  eexists scores, _. split; [exact Hrun|]. split.
  - rewrite Hl. by rewrite decide_True.
  - apply (iter_raises _ 0).
    + intros x Hx. by apply boost_value_raises; [apply server_keywords_raise|].
    + apply base_score_unit.
Qed.

(** X17. The service lists every vocabulary skill that occurs in the
    description, with a score above 0.7 and at most 1, whenever the
    threshold is at most 1.4, so for every threshold of [0, 1]: an
    occurring skill scores [0.7 + 0.1 * exactCount] or more, the boosts
    of the service only raise it, and the cutoff [threshold * 0.5] is at
    most 0.7. *)
Theorem occurring_skill_listed_by_service (jobs_csv : list row)
    (job_description : string) (threshold : Q) (skill : string) :
  job_description <> "" ->
  skill ∈ all_skills jobs_csv ->
  Py.contains (Py.lower skill) (Py.lower job_description) = true ->
  (threshold <= 1.4)%Q ->
  exists found_tech found_soft score,
    Server.analyze_jd jobs_csv job_description threshold = Ok (found_tech, found_soft)
    /\ (skill, score) ∈ found_tech ++ found_soft
    /\ (0.7 < score <= 1)%Q.
Proof.
  intros Hd Hin Hocc Hthr.
  destruct (server_keeps_at_half_threshold jobs_csv job_description threshold Hd)
    as (scores & ft & fs & Hrun & Hans & Hkept).
  destruct (final_scores_spec Server.keywords Py.len (Py.lower job_description)
              (all_skills jobs_csv)) as (m & Hm & Hl).
  rewrite Hrun in Hm. injection Hm as <-.
  specialize (Hl skill). rewrite decide_True in Hl by done.
  pose proof (occurring_base_score _ _ Hocc) as Hb.
  assert (base_score (Py.lower job_description) skill
          <= Nat.iter (occurrences skill (all_skills jobs_csv))
               (boost_value Server.keywords Py.len (Py.lower job_description) skill)
               (base_score (Py.lower job_description) skill) <= 1)%Q as Hs.
  { apply (iter_raises _ 0); [|lra].
    intros x Hx. by apply boost_value_raises; [apply server_keywords_raise|]. }
  eexists ft, fs, _. split; [exact Hans|]. split.
  - apply Hkept. split; [exact Hin|]. split; [exact Hl|]. lra.
  - lra.
Qed.

(** X18. When the cutoff [threshold * 0.5] is positive and the
    threshold is at most 1.4, the service lists a one-word vocabulary
    skill if and only if it occurs in the description: absent, it scores
    0, below the cutoff; only skills of several words can score on
    partial matches. *)
Theorem single_word_listed_iff_occurs (jobs_csv : list row)
    (job_description : string) (threshold : Q) (skill : string) :
  job_description <> "" ->
  skill ∈ all_skills jobs_csv ->
  Py.split (Py.lower skill) = [Py.lower skill] ->
  (0 < threshold * 0.5)%Q ->
  (threshold <= 1.4)%Q ->
  exists found_tech found_soft,
    Server.analyze_jd jobs_csv job_description threshold = Ok (found_tech, found_soft)
    /\ ((exists score, (skill, score) ∈ found_tech ++ found_soft)
        <-> Py.contains (Py.lower skill) (Py.lower job_description) = true).
Proof.
  intros Hd Hin Hw Hpos Hthr.
  destruct (server_keeps_at_half_threshold jobs_csv job_description threshold Hd)
    as (scores & ft & fs & Hrun & Hans & Hkept).
  destruct (final_scores_spec Server.keywords Py.len (Py.lower job_description)
              (all_skills jobs_csv)) as (m & Hm & Hl).
  rewrite Hrun in Hm. injection Hm as <-.
  specialize (Hl skill). rewrite decide_True in Hl by done.
  exists ft, fs. split; [exact Hans|]. split.
  - intros (score & Hlisted). apply Hkept in Hlisted as (_ & Hq & Hle).
    destruct (Py.contains (Py.lower skill) (Py.lower job_description)) eqn:Hc; [done|].
    exfalso. rewrite Hl in Hq. injection Hq as <-.
    rewrite iter_id in Hle by (intros q; by apply boost_value_absent).
    pose proof (absent_single_word_score _ _ Hw Hc). lra.
  - intros Hocc. pose proof (occurring_base_score _ _ Hocc) as Hb.
    eexists. apply Hkept. split; [exact Hin|]. split; [exact Hl|].
    assert (base_score (Py.lower job_description) skill
            <= Nat.iter (occurrences skill (all_skills jobs_csv))
                 (boost_value Server.keywords Py.len (Py.lower job_description) skill)
                 (base_score (Py.lower job_description) skill) <= 1)%Q as Hs.
    { apply (iter_raises _ 0); [|lra].
      intros x Hx. by apply boost_value_raises; [apply server_keywords_raise|]. }
    lra.
Qed.

(** ** The screener's tab: top N and priorities *)

Lemma below_spec score bound : App.below score bound = negb (Qle_bool bound score).
Proof.
  unfold App.below. destruct (Qlt_le_dec score bound) as [Hlt|Hle];
    destruct (Qle_bool bound score) eqn:E; try reflexivity.
  - apply Qle_bool_iff in E. lra.
  - apply Qle_bool_iff in Hle. congruence.
Qed.

Lemma tiers_nested score : Qle_bool 0.65 score = true -> Qle_bool 0.45 score = true.
Proof. rewrite !Qle_bool_iff. lra. Qed.

Lemma filter_cons_bool {A} (f : A -> bool) x (l : list A) :
  filter (fun y => f y = true) (x :: l)
  = if f x then x :: filter (fun y => f y = true) l
    else filter (fun y => f y = true) l.
Proof.
  rewrite filter_cons. destruct (f x); [by rewrite decide_True | by rewrite decide_False].
Qed.

(** X20. The three priority lists of the screener split the ranked
    skills: together they are the ranked names, each exactly once, and
    each list holds the names whose exported priority is its label. *)
Theorem priority_tiers_partition (scored : list item) :
  App.must_have scored ++ App.good_to_have scored ++ App.nice_to_have scored
  ≡ₚ fst <$> scored
  /\ App.must_have scored
     = fst <$> filter (fun it => App.importance (snd it) = "MUST HAVE") scored
  /\ App.good_to_have scored
     = fst <$> filter (fun it => App.importance (snd it) = "GOOD TO HAVE") scored
  /\ App.nice_to_have scored
     = fst <$> filter (fun it => App.importance (snd it) = "NICE TO HAVE") scored.
Proof.
  unfold App.must_have, App.good_to_have, App.nice_to_have. split; [|split; [|split]].
  - induction scored as [|[name score] l IH]; [reflexivity|].
    rewrite !filter_cons_bool. cbn [snd]. rewrite !below_spec.
    destruct (Qle_bool 0.65 score) eqn:E1.
    + rewrite (tiers_nested _ E1). cbn [negb andb fmap list_fmap app fst].
      by rewrite IH.
    + destruct (Qle_bool 0.45 score) eqn:E2; cbn [negb andb].
      * rewrite !fmap_cons. cbn [fst app].
        rewrite <- Permutation_middle. by rewrite IH.
      * rewrite !fmap_cons. cbn [fst].
        rewrite app_assoc, <- Permutation_middle, <- app_assoc. by rewrite IH.
  - f_equal. apply list_filter_iff. intros [name score]. cbn [snd].
    unfold App.importance.
    destruct (Qle_bool 0.65 score); [done|].
    destruct (Qle_bool 0.45 score); split; discriminate.
  - f_equal. apply list_filter_iff. intros [name score]. cbn [snd].
    unfold App.importance. rewrite below_spec.
    destruct (Qle_bool 0.65 score) eqn:E1.
    + rewrite (tiers_nested _ E1). split; discriminate.
    + destruct (Qle_bool 0.45 score); split; done.
  - f_equal. apply list_filter_iff. intros [name score]. cbn [snd].
    unfold App.importance. rewrite below_spec.
    destruct (Qle_bool 0.65 score) eqn:E1.
    + rewrite (tiers_nested _ E1). split; discriminate.
    + destruct (Qle_bool 0.45 score); split; done.
Qed.

(** X21. The screener's tab shows the first [top_n] entries of each
    ranked list: at most [top_n] per list, and no entry that was cut has
    a higher score than an entry shown. *)
Theorem top_n_keeps_the_best (jobs_csv : list row) (job_description_text : string)
    (similarity_threshold : Q) (top_n : nat) (shown_tech shown_soft : list item) :
  App.job_description_tab jobs_csv job_description_text similarity_threshold top_n
  = App.Ranked shown_tech shown_soft ->
  exists found_tech found_soft,
    App.extract_mandatory_skills jobs_csv job_description_text similarity_threshold
    = Some (found_tech, found_soft)
    /\ shown_tech = take top_n found_tech /\ shown_soft = take top_n found_soft
    /\ length shown_tech <= top_n /\ length shown_soft <= top_n
    /\ (forall shown cut, shown ∈ shown_tech -> cut ∈ drop top_n found_tech ->
          (snd cut <= snd shown)%Q)
    /\ (forall shown cut, shown ∈ shown_soft -> cut ∈ drop top_n found_soft ->
          (snd cut <= snd shown)%Q).
Proof.
  unfold App.job_description_tab.
  destruct (decide (job_description_text = "")); [discriminate|].
  destruct (App.extract_mandatory_skills jobs_csv job_description_text
              similarity_threshold) as [[ft fs]|] eqn:H; [|discriminate].
  intros [= <- <-]. exists ft, fs. unfold App.top.
  destruct (ranked_lists_sorted jobs_csv job_description_text similarity_threshold
              ft fs (or_intror H)) as [Ht Hs].
  split; [reflexivity|]. split; [reflexivity|]. split; [reflexivity|].
  split; [apply firstn_le_length|]. split; [apply firstn_le_length|].
  split; intros shown cut Hshown Hcut.
  - rewrite <- (take_drop top_n ft) in Ht.
    exact (StronglySorted_app_1_elem_of _ _ _ _ _ Ht Hshown Hcut).
  - rewrite <- (take_drop top_n fs) in Hs.
    exact (StronglySorted_app_1_elem_of _ _ _ _ _ Hs Hshown Hcut).
Qed.

(** ** Ties *)

Lemma insert_desc_stable q x l :
  filter (fun it : item => Qeq_bool (snd it) q = true) (insert_desc x l)
  = filter (fun it : item => Qeq_bool (snd it) q = true) (x :: l).
Proof.
  induction l as [|y l IH]; [reflexivity|]. cbn [insert_desc].
  destruct (Qlt_le_dec (snd x) (snd y)) as [Hlt|Hle]; [|reflexivity].
  rewrite filter_cons_bool, IH, !filter_cons_bool.
  destruct (Qeq_bool (snd y) q) eqn:Ey; [|reflexivity].
  destruct (Qeq_bool (snd x) q) eqn:Ex; [|reflexivity].
  apply Qeq_bool_iff in Ex, Ey. lra.
Qed.

Lemma sort_desc_stable q l :
  filter (fun it : item => Qeq_bool (snd it) q = true) (sort_desc l)
  = filter (fun it : item => Qeq_bool (snd it) q = true) l.
Proof.
  induction l as [|x l IH]; [reflexivity|].
  cbn [sort_desc foldr]. fold (sort_desc l).
  by rewrite insert_desc_stable, !filter_cons_bool, IH.
Qed.

Lemma sorted_sublist {A} (R : relation A) (l1 l2 : list A) :
  l1 `sublist_of` l2 -> StronglySorted R l2 -> StronglySorted R l1.
Proof.
  induction 1 as [|x l1 l2 Hsub IH|x l1 l2 Hsub IH]; intros Hs; [constructor| |].
  - apply StronglySorted_inv in Hs as [Hs Hx]. constructor; [by apply IH|].
    rewrite Forall_forall in *. intros y Hy. apply Hx.
    by eapply elem_of_sublist.
  - apply StronglySorted_inv in Hs as [Hs _]. by apply IH.
Qed.

Lemma omap_passes_names threshold (scores : gmap string Q) (l : list string) :
  fst <$> omap (passes threshold scores) l `sublist_of` l.
Proof.
  induction l as [|k l IH]; [constructor|]. cbn [omap list_omap].
  destruct (passes threshold scores k) as [[name q]|] eqn:Hp.
  - apply passes_inv in Hp as (-> & _). rewrite fmap_cons. by constructor.
  - by constructor.
Qed.

Lemma omap_passes_name threshold (scores : gmap string Q) (l : list string) it :
  it ∈ omap (passes threshold scores) l -> fst it ∈ l.
Proof.
  intros Hin. apply (elem_of_sublist _ _ _ (list_elem_of_fmap_2 fst _ _ Hin)).
  apply omap_passes_names.
Qed.

(** X13. The sort is stable: among the soft skills of equal score the
    names come in alphabetical order, and so do the technical ones when
    no skill is in both vocabulary sets. *)
Theorem ties_keep_vocabulary_order (jobs_csv : list row) (job_description : string)
    (threshold : Q) (found_tech found_soft : list item) :
  Server.analyze_jd jobs_csv job_description threshold = Ok (found_tech, found_soft)
  \/ App.extract_mandatory_skills jobs_csv job_description threshold
     = Some (found_tech, found_soft) ->
  forall score,
    StronglySorted String.le
      (fst <$> filter (fun it : item => Qeq_bool (snd it) score = true) found_soft)
    /\ ((forall s, s ∈ fst (get_all_skills (load_dataset jobs_csv)) ->
                   ~ (s ∈ snd (get_all_skills (load_dataset jobs_csv)))) ->
        StronglySorted String.le
          (fst <$> filter (fun it : item => Qeq_bool (snd it) score = true)
                     found_tech)).
Proof.
  intros H score. apply entry_points_rank in H
    as [[-> ->]|(kw & sl & scores & _ & _ & -> & ->)].
  - split; [constructor | intros _; constructor].
  - rewrite !sort_desc_stable. unfold all_skills. rewrite !omap_app, !filter_app.
    destruct (vocabulary_sorted (load_dataset jobs_csv)) as [Ht Hs].
    split.
    + rewrite (filter_none _ (omap _ (fst _))), app_nil_l.
      * eapply sorted_sublist; [|exact Hs].
        etransitivity; [apply fmap_sublist, sublist_filter|].
        etransitivity; [apply fmap_sublist, sublist_filter|].
        apply omap_passes_names.
      * intros it Hin Hn. apply Hn. by eapply omap_passes_name.
    + intros Hdisj.
      rewrite (filter_none _ (omap _ (snd _))), app_nil_r.
      * eapply sorted_sublist; [|exact Ht].
        etransitivity; [apply fmap_sublist, sublist_filter|].
        etransitivity; [apply fmap_sublist, sublist_filter|].
        apply omap_passes_names.
      * intros it Hin Hn. apply (Hdisj _ Hn). by eapply omap_passes_name.
Qed.

(** ** Case of the description *)

Lemma lower_empty_iff s : Py.lower s = "" <-> s = "".
Proof. destruct s; split; try done; discriminate. Qed.

(** X19. The service reads the description only through its
    lower-casing: two descriptions with the same lower-casing get the
    same answer.  The screener first measures the description as it is
    written, stripped: when the two descriptions also fall on the same
    side of that guard, the screener gives them the same answer. *)
Theorem description_case_insensitive (jobs_csv : list row)
    (description1 description2 : string) (threshold : Q) :
  Py.lower description1 = Py.lower description2 ->
  Server.analyze_jd jobs_csv description1 threshold
  = Server.analyze_jd jobs_csv description2 threshold
  /\ ((Py.len (Py.strip description1) <? 10)%Z
      = (Py.len (Py.strip description2) <? 10)%Z ->
      App.extract_mandatory_skills jobs_csv description1 threshold
      = App.extract_mandatory_skills jobs_csv description2 threshold).
Proof.
  intros Hl.
  assert (description1 = "" <-> description2 = "") as He
    by (rewrite <- (lower_empty_iff description1), Hl; apply lower_empty_iff).
  unfold Server.analyze_jd, App.extract_mandatory_skills. rewrite Hl.
  split; [|intros ->];
    destruct (decide (description1 = "")), (decide (description2 = ""));
    tauto.
Qed.

Lemma description_case_insensitive_witness :
  Py.lower "Python REQUIRED" = Py.lower "python required"
  /\ Server.analyze_jd sample_csv "Python REQUIRED" 0.4
     = Server.analyze_jd sample_csv "python required" 0.4
  /\ App.extract_mandatory_skills sample_csv "Python REQUIRED" 0.4
     = App.extract_mandatory_skills sample_csv "python required" 0.4.
Proof.
  split; [reflexivity|].
  destruct (description_case_insensitive sample_csv "Python REQUIRED"
              "python required" 0.4 eq_refl) as [Hservice Hscreener].
  split; [exact Hservice | exact (Hscreener eq_refl)].
Defined.

(** ** How often a skill is listed *)

Lemma occurrences_nodup_le k (l : list string) : NoDup l -> occurrences k l <= 1.
Proof.
  intros Hn. destruct (decide (k ∈ l)).
  - by rewrite occurrences_nodup.
  - rewrite occurrences_not_in by done. lia.
Qed.

Lemma filter_name_passes_length threshold (scores : gmap string Q)
    (l : list string) k :
  length (filter (fun it : item => fst it = k) (omap (passes threshold scores) l))
  <= occurrences k l.
Proof.
  unfold occurrences. induction l as [|a l IH]; [done|]. cbn [omap list_omap].
  rewrite (filter_cons (fun x => x = k)).
  destruct (passes threshold scores a) as [[name q]|] eqn:Hp.
  - apply passes_inv in Hp as (-> & _). rewrite filter_cons. cbn [fst].
    destruct (decide (a = k)); cbn [length]; lia.
  - destruct (decide (a = k)); cbn [length]; lia.
Qed.

(** X14. A skill is listed at most as often as the concatenated
    vocabulary lists it, which is at most twice, and at most once when
    it is not in both vocabulary sets. *)
Theorem skill_listed_at_most_twice (jobs_csv : list row) (job_description : string)
    (threshold : Q) (found_tech found_soft : list item) :
  Server.analyze_jd jobs_csv job_description threshold = Ok (found_tech, found_soft)
  \/ App.extract_mandatory_skills jobs_csv job_description threshold
     = Some (found_tech, found_soft) ->
  forall skill,
    length (filter (fun it : item => fst it = skill) (found_tech ++ found_soft))
    <= occurrences skill (all_skills jobs_csv)
    /\ occurrences skill (all_skills jobs_csv) <= 2
    /\ (~ (skill ∈ fst (get_all_skills (load_dataset jobs_csv))
           /\ skill ∈ snd (get_all_skills (load_dataset jobs_csv))) ->
        length (filter (fun it : item => fst it = skill) (found_tech ++ found_soft))
        <= 1).
Proof.
  intros H skill.
  destruct (vocabulary_nodup (load_dataset jobs_csv)) as [Hnt Hns].
  assert (occurrences skill (all_skills jobs_csv) <= 2) as H2.
  { unfold all_skills. rewrite occurrences_app.
    pose proof (occurrences_nodup_le skill _ Hnt).
    pose proof (occurrences_nodup_le skill _ Hns). lia. }
  assert (length (filter (fun it : item => fst it = skill) (found_tech ++ found_soft))
          <= occurrences skill (all_skills jobs_csv)) as Hlen.
  { apply entry_points_rank in H
      as [[-> ->]|(kw & sl & scores & _ & _ & -> & ->)]; [cbn; lia|].
    rewrite !sort_desc_perm, filter_app_complement.
    apply filter_name_passes_length. }
  split; [exact Hlen|]. split; [exact H2|].
  intros Hone. etransitivity; [exact Hlen|].
  unfold all_skills. rewrite occurrences_app.
  destruct (decide (skill ∈ fst (get_all_skills (load_dataset jobs_csv)))) as [Ht|Ht].
  - rewrite (occurrences_not_in skill (snd _)) by tauto.
    pose proof (occurrences_nodup_le skill _ Hnt). lia.
  - rewrite (occurrences_not_in skill (fst _)) by done.
    pose proof (occurrences_nodup_le skill _ Hns). lia.
Qed.

(** ** An empty resume *)

Lemma sorted_set_fixed (l : list string) :
  StronglySorted String.le l -> NoDup l -> Py.sorted (Py.set l) = l.
Proof.
  intros Hs Hn. apply (StronglySorted_unique String.le).
  - apply sorted_spec.
  - exact Hs.
  - unfold Py.sorted, Py.set. rewrite merge_sort_Permutation.
    by apply elements_list_to_set.
Qed.

Lemma contains_in_empty s : s <> "" -> Py.contains s "" = false.
Proof. destruct s; [done|reflexivity]. Qed.

Lemma matcher_empty_text (skills : list string) :
  ~ ("" ∈ skills) -> extract_skills_from_text "" skills = [].
Proof.
  intros Hb. unfold extract_skills_from_text. rewrite filter_none; [reflexivity|].
  intros s Hs. rewrite contains_in_empty; [discriminate|].
  apply lower_not_empty. intros ->. done.
Qed.

(** X8. For a resume without text a successful screening finds no
    skill, reports all the skills of the role as missing and recommends
    upskilling. *)
Theorem empty_resume_misses_everything (jobs_csv : list row)
    (str_contains : string -> option (string -> bool))
    (match_score : string -> string -> option Q) (job_role : string)
    (result : match_result) :
  Server.screen jobs_csv str_contains match_score "" job_role = Ok result ->
  exists tech soft job_text,
    Server.get_job_skills jobs_csv str_contains job_role = Some (tech, soft, job_text)
    /\ techSkillsFound result = [] /\ softSkillsFound result = []
    /\ missingTechSkills result = tech /\ missingSoftSkills result = soft
    /\ recommendation result = "Upskill using Coursera, Udemy, or LinkedIn Learning.".
Proof.
  unfold Server.screen.
  destruct (Server.get_job_skills jobs_csv str_contains job_role)
    as [[[tech soft] job_text]|] eqn:Hget; [|discriminate].
  destruct (decide (job_text = "")) as [|Hne]; [discriminate|].
  destruct (match_score "" job_text) as [score|]; [|discriminate].
  intros [= <-]. exists tech, soft, job_text. cbn.
  unfold Server.get_job_skills in Hget.
  destruct (str_contains (Py.lower job_role)) as [title_matches|]; [|discriminate].
  cbn in Hget. injection Hget as Hget.
  set (filtered := filter (fun r => title_matches (job_title r) = true)
                          (Server.df jobs_csv)) in *.
  assert (filtered <> []) as Hf.
  { intros E. rewrite E in Hget. by injection Hget as _ _ <-. }
  destruct (server_skills_of_rows_spec filtered Hf)
    as (t & s & Heq & Hst & Hnt & Hss & Hns & Hbt & Hbs & _).
  rewrite Heq in Hget. injection Hget as <- <- <-.
  rewrite !matcher_empty_text by done.
  assert (Py.set (@nil string) = ∅) as -> by reflexivity.
  rewrite !difference_empty_L, !sorted_set_fixed by done.
  split; [reflexivity|]. repeat split.
  destruct t as [|x t]; [|reflexivity]. destruct s as [|y s]; [|reflexivity].
  exfalso. by apply Hne.
Qed.

Lemma service_boost_never_lowers_witness :
  "python" ∈ all_skills sample_csv
  /\ exists (scores : gmap string Q) score,
       final_scores Server.keywords Py.len (Py.lower "Python is mandatory")
         (all_skills sample_csv) = Some scores
       /\ scores !! "python" = Some score
       /\ (base_score (Py.lower "Python is mandatory") "python" <= score <= 1)%Q.
Proof.
  assert ("python" ∈ all_skills sample_csv) as Hin by (vm_compute; right; left).
  split; [exact Hin|].
  exact (service_boost_never_lowers sample_csv "Python is mandatory" "python" Hin).
Defined.

Lemma occurring_skill_listed_by_service_witness :
  "Needs SQL" <> "" /\ "sql" ∈ all_skills sample_csv
  /\ Py.contains (Py.lower "sql") (Py.lower "Needs SQL") = true
  /\ (1 <= 1.4)%Q
  /\ exists found_tech found_soft score,
       Server.analyze_jd sample_csv "Needs SQL" 1 = Ok (found_tech, found_soft)
       /\ ("sql", score) ∈ found_tech ++ found_soft
       /\ (0.7 < score <= 1)%Q.
Proof.
  assert ("Needs SQL" <> "") as Hd by discriminate.
  assert ("sql" ∈ all_skills sample_csv) as Hin
    by (vm_compute; right; right; left).
  assert (1 <= 1.4)%Q as Hthr by (vm_compute; discriminate).
  split; [exact Hd|]. split; [exact Hin|]. split; [reflexivity|]. split; [exact Hthr|].
  exact (occurring_skill_listed_by_service sample_csv "Needs SQL" 1 "sql"
           Hd Hin eq_refl Hthr).
Defined.

Lemma single_word_listed_iff_occurs_witness :
  "Needs SQL" <> "" /\ "python" ∈ all_skills sample_csv
  /\ Py.split (Py.lower "python") = [Py.lower "python"]
  /\ (0 < 0.4 * 0.5)%Q /\ (0.4 <= 1.4)%Q
  /\ exists found_tech found_soft,
       Server.analyze_jd sample_csv "Needs SQL" 0.4 = Ok (found_tech, found_soft)
       /\ ((exists score, ("python", score) ∈ found_tech ++ found_soft)
           <-> Py.contains (Py.lower "python") (Py.lower "Needs SQL") = true).
Proof.
  assert ("Needs SQL" <> "") as Hd by discriminate.
  assert ("python" ∈ all_skills sample_csv) as Hin by (vm_compute; right; left).
  assert (0 < 0.4 * 0.5)%Q as Hpos by reflexivity.
  assert (0.4 <= 1.4)%Q as Hthr by (vm_compute; discriminate).
  split; [exact Hd|]. split; [exact Hin|]. split; [reflexivity|].
  split; [exact Hpos|]. split; [exact Hthr|].
  exact (single_word_listed_iff_occurs sample_csv "Needs SQL" 0.4 "python"
           Hd Hin eq_refl Hpos Hthr).
Defined.

Lemma top_n_keeps_the_best_witness :
  exists shown_tech shown_soft,
    App.job_description_tab overlap_csv
      "SQL is required, roadmapping and presentation are optional" 0.4 2
    = App.Ranked shown_tech shown_soft
    /\ length shown_tech <= 2.
Proof.
  destruct (App.job_description_tab overlap_csv
      "SQL is required, roadmapping and presentation are optional" 0.4 2)
    as [|st ss|] eqn:H; try (vm_compute in H; discriminate).
  exists st, ss. split; [reflexivity|].
  destruct (top_n_keeps_the_best _ _ _ _ _ _ H) as (ft & fs & _ & _ & _ & Hlen & _).
  exact Hlen.
Defined.

Lemma ties_keep_vocabulary_order_witness :
  exists found_tech found_soft,
    (Server.analyze_jd sample_csv "SQL, Python and communication" 0.4
     = Ok (found_tech, found_soft)
     \/ App.extract_mandatory_skills sample_csv "SQL, Python and communication" 0.4
        = Some (found_tech, found_soft))
    /\ StronglySorted String.le
         (fst <$> filter (fun it : item => Qeq_bool (snd it) 0.8 = true) found_soft).
Proof.
  destruct (Server.analyze_jd sample_csv "SQL, Python and communication" 0.4)
    as [[ft fs]| | |] eqn:H; try (vm_compute in H; discriminate).
  exists ft, fs. split; [by left|].
  exact (proj1 (ties_keep_vocabulary_order _ _ _ _ _ (or_introl H) 0.8)).
Defined.

Lemma skill_listed_at_most_twice_witness :
  exists found_tech found_soft,
    (Server.analyze_jd overlap_csv "Presentation skills are required" 0.4
     = Ok (found_tech, found_soft)
     \/ App.extract_mandatory_skills overlap_csv "Presentation skills are required" 0.4
        = Some (found_tech, found_soft))
    /\ occurrences "presentation" (all_skills overlap_csv) <= 2.
Proof.
  destruct (Server.analyze_jd overlap_csv "Presentation skills are required" 0.4)
    as [[ft fs]| | |] eqn:H; try (vm_compute in H; discriminate).
  exists ft, fs. split; [by left|].
  exact (proj1 (proj2 (skill_listed_at_most_twice _ _ _ _ _ (or_introl H)
                         "presentation"))).
Defined.

Lemma empty_resume_misses_everything_witness :
  exists result,
    Server.screen sample_csv literal_contains (fun _ _ => Some 0%Q) "" "data" = Ok result
    /\ techSkillsFound result = [].
Proof.
  destruct (Server.screen sample_csv literal_contains (fun _ _ => Some 0%Q) "" "data")
    as [result| | |] eqn:H; try (vm_compute in H; discriminate).
  exists result. split; [reflexivity|].
  destruct (empty_resume_misses_everything _ _ _ _ _ H)
    as (tech & soft & job_text & _ & Hfound & _).
  exact Hfound.
Defined.

Example tab_ex :
  App.job_description_tab overlap_csv
    "SQL is required, roadmapping and presentation are optional" 0.4 1
  = App.Ranked [("presentation", 1%Q)] [].
Proof. vm_compute. reflexivity. Qed.
